(** * OLX search scraper: a shallow embedding of [olx_scraper.py]

    The development follows the source file top to bottom: the page URL
    rule, the per-card field extractor, the per-page scraper with its
    listing locator, the multi-page aggregator and the two exporters.

    Python values are modelled as follows.
    - [str] is a list of Unicode code points, so that iterating a string,
      the test ['₹' in s] and [str.isdigit] are per code point, as in Python.
    - [int] is [Z]; the f-string rendering of an int is its decimal text.
    - a [dict] with string keys is an association list in insertion order.
    - [None] is the [None] of an [option]; an exception is the [Raise] of
      the error type [exc].
    - console output ([print]) is not modelled. *)

From Stdlib Require Import ZArith QArith Ascii String DecimalString DecimalZ.
From stdpp Require Import base option list strings gmap.

Local Open Scope Z_scope.
Local Open Scope list_scope.

(** ** Python strings *)

Definition char := N.
Definition str := list char.

(** An ASCII literal of the source, as a Python string. *)
Definition lit (s : string) : str :=
  List.map N_of_ascii (list_ascii_of_string s).

(** [str(n)] for an int, which is what an f-string field renders. *)
Definition str_of_int (n : Z) : str :=
  lit (NilZero.string_of_int (Z.to_int n)).

(** [s.startswith(p)] *)
Fixpoint startswith (s p : str) : bool :=
  match p, s with
  | [], _ => true
  | _ :: _, [] => false
  | c :: p', d :: s' => if N.eqb c d then startswith s' p' else false
  end.

(** Truth value of a string: the empty string is falsy. *)
Definition truthy (s : str) : bool :=
  match s with [] => false | _ :: _ => true end.

(** [x or d] where [x] is a string or [None]. *)
Definition py_or (x : option str) (d : str) : str :=
  match x with
  | Some s => if truthy s then s else d
  | None => d
  end.

(** The sentinel of the extractor. *)
Definition NA : str := lit "N/A".

(** ** Dictionaries

    A record of the scraper is a [dict] from field name to string. *)

Definition item := list (string * str).

Fixpoint dict_get (d : item) (k : string) : option str :=
  match d with
  | [] => None
  | (k', v) :: d' => if String.eqb k k' then Some v else dict_get d' k
  end.

Definition dict_keys (d : item) : list string := List.map fst d.
Definition dict_values (d : item) : list str := List.map snd d.

(** ** The scraper object

    [session] is the HTTP client; its behaviour is the network oracle of
    the library interface below. [delay] is a float in the source and a
    rational here. *)

Record OLXScraper := {
  base_url : str;
  delay : Q;
  results : list item
}.

(** [get_page_url] *)
Definition get_page_url (self : OLXScraper) (page_num : Z) : str :=
  if page_num =? 1 then base_url self
  else base_url self ++ lit "?page=" ++ str_of_int page_num.

(** ** Exceptions

    The source distinguishes [requests.RequestException] from every other
    [Exception]; both handlers live in [scrape_page]. *)

Inductive exception :=
| RequestException (what : string)
| OtherException (what : string).

Inductive exc (A : Type) :=
| Ret (a : A)
| Raise (e : exception).
Arguments Ret {A} a.
Arguments Raise {A} e.

Definition exc_bind {A B} (c : exc A) (k : A -> exc B) : exc B :=
  match c with
  | Ret a => k a
  | Raise e => Raise e
  end.

Declare Scope exc_scope.
Delimit Scope exc_scope with exc.
Notation "x <- c ;; k" := (exc_bind c (fun x => k))
  (at level 100, c at next level, right associativity) : exc_scope.

(** [d[k]], which raises [KeyError] on a missing key. *)
Definition dict_getitem (d : item) (k : string) : exc str :=
  match dict_get d k with
  | Some v => Ret v
  | None => Raise (OtherException "KeyError")
  end.

(** ** The world outside the program

    An HTTP response carries a status code and a body. The effects of a
    run are the requests sent and the pauses taken, in program order. *)

Record Response (Content : Type) := {
  status_code : Z;
  content : Content
}.
Arguments status_code {Content} r.
Arguments content {Content} r.

Inductive event :=
| EvGet (url : str) (timeout : Z)
| EvSleep (secs : Q).

(** ** The libraries the program calls

    [requests], [bs4], [urllib.parse], [os], [csv], [json] and the Unicode
    tables behind [str] are not part of the repository. They are an
    interface here; every theorem holds for all of its implementations.

    - [isdigit c] is [c.isdigit()] and [lower s] is [s.lower()].
    - [BeautifulSoup b] parses a body with ['html.parser'].
    - [bs_select t sel], [bs_select_one t sel] are [t.select(sel)] and
      [t.select_one(sel)]; the selectors of the source are constants, for
      which these calls do not raise.
    - [bs_get_text t] is [t.get_text(strip=True)].
    - [bs_find t name attrs] is [t.find(name, a=True, ...)] for the
      attribute names [a] of [attrs].
    - [bs_find_all_string t names f] is [t.find_all(names, string=f)].
    - [bs_get t a] is [t.get(a)].
    - [urljoin b u] is [urllib.parse.urljoin(b, u)], which raises
      [ValueError] on some malformed references.
    - [session_get past url timeout] is the answer of the network to
      [session.get(url, timeout=timeout)] after the effects [past].
    - [time_sleep secs] is the outcome of [time.sleep(secs)]: it returns
      after the pause or raises, as the interpreter and the system
      decide for that length. The outcome depends on the length alone;
      a signal that interrupts the pause is not modelled.
    - [makedirs p] is [os.makedirs(p, exist_ok=True)]; [open_w p] opens
      [p] for writing, creating or truncating it; [write p s] appends [s]
      to the file opened at [p].
    - [csv_row r] is the line [csv.writer] emits for the row [r];
      [json_dumps l] is the text of
      [json.dump(l, f, indent=2, ensure_ascii=False)]. *)

Class Library := {
  Tag : Type;
  Content : Type;
  FS : Type;
  isdigit : char -> bool;
  lower : str -> str;
  BeautifulSoup : Content -> exc Tag;
  bs_select : Tag -> str -> list Tag;
  bs_select_one : Tag -> str -> option Tag;
  bs_get_text : Tag -> str;
  bs_find : Tag -> str -> list str -> option Tag;
  bs_find_all_string : Tag -> list str -> (option str -> bool) -> list Tag;
  bs_get : Tag -> str -> option str;
  urljoin : str -> str -> exc str;
  session_get : list event -> str -> Z -> exc (Response Content);
  time_sleep : Q -> exc unit;
  makedirs : str -> FS -> exc FS;
  open_w : str -> FS -> exc FS;
  write : str -> str -> FS -> exc FS;
  csv_row : list str -> str;
  json_dumps : list item -> str
}.

(** [tag[a]], which raises [KeyError] when the attribute is absent. *)
Definition bs_getitem `{Library} (t : Tag) (a : str) : exc str :=
  match bs_get t a with
  | Some v => Ret v
  | None => Raise (OtherException "KeyError")
  end.

(** [sub in s] for strings. *)
Fixpoint contains (s sub : str) : bool :=
  startswith s sub ||
  match s with
  | [] => false
  | _ :: s' => contains s' sub
  end.

(** The rupee sign, U+20B9. *)
Definition rupee : char := 8377%N.

(** The double quote, U+0022, and the selector [[a="v"]]. *)
Definition dquote : str := [34%N].

Definition attr_selector (a v : string) : str :=
  lit "[" ++ lit a ++ lit "=" ++ dquote ++ lit v ++ dquote ++ lit "]".

(** [[a*="v"]] *)
Definition attr_contains_selector (a v : string) : str :=
  lit "[" ++ lit a ++ lit "*=" ++ dquote ++ lit v ++ dquote ++ lit "]".

(** ** [extract_item_data] *)

Definition title_selectors : list str :=
  [lit "h6"; attr_selector "data-aut-id" "itemTitle"; lit ".title";
   lit "h6._2caa7"].

Definition price_selectors : list str :=
  [lit "span._2b6f3"; attr_selector "data-aut-id" "itemPrice"; lit ".price";
   lit "span" ++ attr_contains_selector "class" "price"].

Definition location_selectors : list str :=
  [lit "span._2e28f"; attr_selector "data-aut-id" "item-location";
   lit ".location"].

(** The title and location loops: the text of the first selector that
    matches an element, whatever that text is. *)
Fixpoint first_text `{Library} (selectors : list str) (item_card : Tag)
  : option str :=
  match selectors with
  | [] => None
  | selector :: rest =>
      match bs_select_one item_card selector with
      | Some elem => Some (bs_get_text elem)
      | None => first_text rest item_card
      end
  end.

(** The test of line 58 on a price text. *)
Definition looks_like_price `{Library} (price_text : str) : bool :=
  contains price_text [rupee] || existsb isdigit price_text.

(** The price loop: it breaks only on a text that passes the test. *)
Fixpoint first_price `{Library} (selectors : list str) (item_card : Tag)
  : option str :=
  match selectors with
  | [] => None
  | selector :: rest =>
      match bs_select_one item_card selector with
      | Some price_elem =>
          let price_text := bs_get_text price_elem in
          if looks_like_price price_text then Some price_text
          else first_price rest item_card
      | None => first_price rest item_card
      end
  end.

Definition origin : str := lit "https://www.olx.in".

(** Lines 72 to 76. *)
Definition extract_url `{Library} (item_card : Tag) : exc (option str) :=
  match bs_find item_card (lit "a") [lit "href"] with
  | Some link_elem =>
      (href <- bs_getitem link_elem (lit "href") ;;
       if negb (startswith href (lit "http"))
       then (url <- urljoin origin href ;; Ret (Some url))
       else Ret (Some href))%exc
  | None => Ret None
  end.

(** Lines 79 to 82. *)
Definition extract_image_url `{Library} (item_card : Tag) : exc (option str) :=
  match bs_find item_card (lit "img") [] with
  | Some img_elem =>
      match bs_get img_elem (lit "src") with
      | Some src =>
          if truthy src
          then (image_url <- bs_getitem img_elem (lit "src") ;;
                Ret (Some image_url))%exc
          else Ret None
      | None => Ret None
      end
  | None => Ret None
  end.

(** The body of the [try] block. *)
Definition extract_item_data_try `{Library} (item_card : Tag) : exc item :=
  (let title := first_text title_selectors item_card in
   let price := first_price price_selectors item_card in
   let location := first_text location_selectors item_card in
   url <- extract_url item_card ;;
   image_url <- extract_image_url item_card ;;
   Ret [("title", py_or title NA);
        ("price", py_or price NA);
        ("location", py_or location NA);
        ("url", py_or url NA);
        ("image_url", py_or image_url NA)])%exc.

(** [extract_item_data]: any exception is caught and [None] returned. *)
Definition extract_item_data `{Library} (item_card : Tag) : option item :=
  match extract_item_data_try item_card with
  | Ret item_data => Some item_data
  | Raise _ => None
  end.

(** ** Effects

    The state threaded through the program is the trace of network and
    clock effects and the file system. A computation either returns or
    raises, and leaves a state behind in both cases. *)

Record World `{Library} := {
  trace : list event;
  fs : FS
}.

Definition M `{Library} (A : Type) : Type := World -> exc A * World.

Definition io_ret `{Library} {A} (a : A) : M A := fun w => (Ret a, w).

Definition io_bind `{Library} {A B} (c : M A) (k : A -> M B) : M B :=
  fun w =>
    match c w with
    | (Ret a, w') => k a w'
    | (Raise e, w') => (Raise e, w')
    end.

(** A computation without effects, run inside an effectful one. *)
Definition lift `{Library} {A} (c : exc A) : M A := fun w => (c, w).

(** [try: body except ... as e: handler e] *)
Definition try_except `{Library} {A} (body : M A) (handler : exception -> M A)
  : M A :=
  fun w =>
    match body w with
    | (Ret a, w') => (Ret a, w')
    | (Raise e, w') => handler e w'
    end.

Declare Scope io_scope.
Delimit Scope io_scope with io.
Notation "x <- c ;; k" := (io_bind c (fun x => k))
  (at level 100, c at next level, right associativity) : io_scope.

Definition log `{Library} (e : event) (w : World) : World :=
  {| trace := trace w ++ [e]; fs := fs w |}.

(** [self.session.get(url, timeout=timeout)] *)
Definition http_get `{Library} (url : str) (timeout : Z)
  : M (Response Content) :=
  fun w => (session_get (trace w) url timeout, log (EvGet url timeout) w).

(** [response.raise_for_status()] of [requests]: an [HTTPError], which is
    a [RequestException], for the status codes 400 to 599. *)
Definition raise_for_status {C} (response : Response C) : exc unit :=
  if (400 <=? status_code response) && (status_code response <? 600)
  then Raise (RequestException "HTTPError")
  else Ret tt.

(** [time.sleep(secs)]: the pause is recorded when the call returns. *)
Definition sleep `{Library} (secs : Q) : M unit :=
  fun w =>
    match time_sleep secs with
    | Ret _ => (Ret tt, log (EvSleep secs) w)
    | Raise e => (Raise e, w)
    end.

(** File system calls. *)
Definition on_fs `{Library} (op : FS -> exc FS) : M unit :=
  fun w =>
    match op (fs w) with
    | Ret fs' => (Ret tt, {| trace := trace w; fs := fs' |})
    | Raise e => (Raise e, w)
    end.

(** ** [scrape_page] *)

Definition card_selectors : list str :=
  [attr_selector "data-aut-id" "itemBox"; lit "li.EIR5N"; lit "div._2fp1f";
   lit ".item-card"; attr_contains_selector "class" "item"].

(** Lines 117 to 123: the result of the first selector that matches. *)
Fixpoint first_items `{Library} (selectors : list str) (soup : Tag)
  : list Tag :=
  match selectors with
  | [] => []
  | selector :: rest =>
      match bs_select soup selector with
      | [] => first_items rest soup
      | items => items
      end
  end.

(** The [lambda] of line 128, applied to the [.string] of a tag. *)
Definition car_text `{Library} (text : option str) : bool :=
  match text with
  | Some t => if truthy t then contains (lower t) (lit "car") else false
  | None => false
  end.

(** Lines 109 to 128. *)
Definition locate_listings `{Library} (soup : Tag) : list Tag :=
  match first_items card_selectors soup with
  | [] => bs_find_all_string soup [lit "div"; lit "li"] car_text
  | items_found => items_found
  end.

(** Lines 130 to 134. *)
Fixpoint collect_valid `{Library} (items_found : list Tag)
  (page_results : list item) : exc (list item) :=
  match items_found with
  | [] => Ret page_results
  | item_card :: rest =>
      match extract_item_data item_card with
      | Some [] => collect_valid rest page_results
      | Some item_data =>
          (title <- dict_getitem item_data "title" ;;
           if decide (title = NA) then collect_valid rest page_results
           else collect_valid rest (page_results ++ [item_data]))%exc
      | None => collect_valid rest page_results
      end
  end.

(** The body of the [try] block. *)
Definition scrape_page_try `{Library} (self : OLXScraper) (page_num : Z)
  : M (list item) :=
  (let url := get_page_url self page_num in
   response <- http_get url 15 ;;
   _ <- lift (raise_for_status response) ;;
   soup <- lift (BeautifulSoup (content response)) ;;
   lift (collect_valid (locate_listings soup) []))%io.

Definition scrape_page `{Library} (self : OLXScraper) (page_num : Z)
  : M (list item) :=
  try_except (scrape_page_try self page_num)
    (fun e =>
       match e with
       | RequestException _ => io_ret []
       | OtherException _ => io_ret []
       end).

(** ** [scrape_multiple_pages] *)

(** [range(a, b)] *)
Definition py_range (a b : Z) : list Z :=
  List.map (fun i => a + Z.of_nat i) (seq 0 (Z.to_nat (b - a))).

(** The [for] loop over the page numbers. *)
Fixpoint scrape_loop `{Library} (self : OLXScraper) (max_pages : Z)
  (pages : list Z) (all_results : list item) : M (list item) :=
  match pages with
  | [] => io_ret all_results
  | page :: rest =>
      (page_results <- scrape_page self page ;;
       let all_results := all_results ++ page_results in
       _ <- (if page <? max_pages then sleep (delay self) else io_ret tt) ;;
       scrape_loop self max_pages rest all_results)%io
  end.

Definition set_results (self : OLXScraper) (r : list item) : OLXScraper :=
  {| base_url := base_url self; delay := delay self; results := r |}.

(** The method returns the list and stores it in [self.results]. *)
Definition scrape_multiple_pages `{Library} (self : OLXScraper) (max_pages : Z)
  : M (list item * OLXScraper) :=
  (all_results <- scrape_loop self max_pages (py_range 1 (max_pages + 1)) [] ;;
   io_ret (all_results, set_results self all_results))%io.

(** ** Exporters *)

(** [os.path.join(a, b)] on POSIX. *)
Definition path_join (a b : str) : str :=
  if startswith b (lit "/") then b
  else if negb (truthy a) || startswith (rev a) (lit "/") then a ++ b
  else a ++ lit "/" ++ b.

Definition fieldnames : list string :=
  ["title"; "price"; "location"; "url"; "image_url"]%string.

(** The row [csv.DictWriter] makes of a dict: a key outside the field
    names raises [ValueError]; a missing field is the empty string. *)
Definition dict_to_list (rowdict : item) : exc (list str) :=
  if forallb (fun k => existsb (String.eqb k) fieldnames) (dict_keys rowdict)
  then Ret (List.map (fun k => default [] (dict_get rowdict k)) fieldnames)
  else Raise (OtherException "ValueError").

Fixpoint write_rows `{Library} (filepath : str) (rows : list item) : M unit :=
  match rows with
  | [] => io_ret tt
  | row :: rest =>
      (fields <- lift (dict_to_list row) ;;
       _ <- on_fs (write filepath (csv_row fields)) ;;
       write_rows filepath rest)%io
  end.

Definition save_to_csv `{Library} (self : OLXScraper) (filename : str)
  : M (option str) :=
  match results self with
  | [] => io_ret None
  | _ :: _ =>
      (_ <- on_fs (makedirs (lit "output")) ;;
       let filepath := path_join (lit "output") filename in
       _ <- on_fs (open_w filepath) ;;
       _ <- on_fs (write filepath (csv_row (List.map lit fieldnames))) ;;
       _ <- write_rows filepath (results self) ;;
       io_ret (Some filepath))%io
  end.

Definition save_to_json `{Library} (self : OLXScraper) (filename : str)
  : M (option str) :=
  match results self with
  | [] => io_ret None
  | _ :: _ =>
      (_ <- on_fs (makedirs (lit "output")) ;;
       let filepath := path_join (lit "output") filename in
       _ <- on_fs (open_w filepath) ;;
       _ <- on_fs (write filepath (json_dumps (results self))) ;;
       io_ret (Some filepath))%io
  end.

(** * A concrete library for running the program

    The theorems below hold for every [Library]. To run the program on
    concrete pages, this part gives one: a small document tree with the
    selectors of the source, a reading of [urllib.parse.urljoin] after
    CPython 3.11, a flat file system and a scripted network. It is used
    for examples only. *)

Module Fixture.

(** ** Documents *)

#[local] Set Warnings "-register-all".

Inductive node :=
| Element (name : str) (attrs : list (str * str)) (children : list node)
| NavigableString (s : str).

(** [el] and [txt] build a tree from ASCII literals. *)
Definition el (name : string) (attrs : list (string * string))
  (children : list node) : node :=
  Element (lit name) (List.map (fun av => (lit (fst av), lit (snd av))) attrs)
    children.

Definition txt (s : string) : node := NavigableString (lit s).

Definition str_eqb (a b : str) : bool := bool_decide (a = b).

(** The nodes below [n], in document order. *)
Fixpoint descendants (n : node) : list node :=
  match n with
  | Element _ _ children =>
      (fix go (cs : list node) : list node :=
         match cs with
         | [] => []
         | c :: cs' => c :: descendants c ++ go cs'
         end) children
  | NavigableString _ => []
  end.

Fixpoint assoc (l : list (str * str)) (k : str) : option str :=
  match l with
  | [] => None
  | (k', v) :: l' => if str_eqb k k' then Some v else assoc l' k
  end.

Definition node_get (n : node) (a : str) : option str :=
  match n with
  | Element _ attrs _ => assoc attrs a
  | NavigableString _ => None
  end.

(** ASCII white space. *)
Definition is_space (c : char) : bool :=
  (N.eqb c 32 || (N.leb 9 c && N.leb c 13))%N.

Fixpoint drop_spaces (s : str) : str :=
  match s with
  | c :: s' => if is_space c then drop_spaces s' else s
  | [] => []
  end.

(** [s.strip()] *)
Definition strip (s : str) : str := rev (drop_spaces (rev (drop_spaces s))).

(** [s.split()] on white space. *)
Fixpoint words_from (s cur : str) : list str :=
  match s with
  | [] => match cur with [] => [] | _ => [rev cur] end
  | c :: s' =>
      if is_space c
      then match cur with
           | [] => words_from s' []
           | _ => rev cur :: words_from s' []
           end
      else words_from s' (c :: cur)
  end.

Definition words (s : str) : list str := words_from s [].

(** The selectors of the source are compound selectors: an optional tag
    name, an optional class, an optional attribute test. *)
Inductive attr_test :=
| AttrEquals (a v : str)
| AttrContains (a v : str).

Record compound := {
  sel_name : option str;
  sel_class : option str;
  sel_attr : option attr_test
}.

Definition by_name (n : string) : compound :=
  {| sel_name := Some (lit n); sel_class := None; sel_attr := None |}.
Definition by_class (c : string) : compound :=
  {| sel_name := None; sel_class := Some (lit c); sel_attr := None |}.
Definition by_name_class (n c : string) : compound :=
  {| sel_name := Some (lit n); sel_class := Some (lit c); sel_attr := None |}.
Definition by_attr (a v : string) : compound :=
  {| sel_name := None; sel_class := None;
     sel_attr := Some (AttrEquals (lit a) (lit v)) |}.

Definition css_table : list (str * compound) :=
  [ (lit "h6", by_name "h6");
    (attr_selector "data-aut-id" "itemTitle", by_attr "data-aut-id" "itemTitle");
    (lit ".title", by_class "title");
    (lit "h6._2caa7", by_name_class "h6" "_2caa7");
    (lit "span._2b6f3", by_name_class "span" "_2b6f3");
    (attr_selector "data-aut-id" "itemPrice", by_attr "data-aut-id" "itemPrice");
    (lit ".price", by_class "price");
    (lit "span" ++ attr_contains_selector "class" "price",
     {| sel_name := Some (lit "span"); sel_class := None;
        sel_attr := Some (AttrContains (lit "class") (lit "price")) |});
    (lit "span._2e28f", by_name_class "span" "_2e28f");
    (attr_selector "data-aut-id" "item-location",
     by_attr "data-aut-id" "item-location");
    (lit ".location", by_class "location");
    (attr_selector "data-aut-id" "itemBox", by_attr "data-aut-id" "itemBox");
    (lit "li.EIR5N", by_name_class "li" "EIR5N");
    (lit "div._2fp1f", by_name_class "div" "_2fp1f");
    (lit ".item-card", by_class "item-card");
    (attr_contains_selector "class" "item",
     {| sel_name := None; sel_class := None;
        sel_attr := Some (AttrContains (lit "class") (lit "item")) |}) ].

Fixpoint css (selector : str) (table : list (str * compound))
  : option compound :=
  match table with
  | [] => None
  | (s, c) :: table' => if str_eqb selector s then Some c else css selector table'
  end.

Definition opt_test {A} (o : option A) (f : A -> bool) : bool :=
  match o with Some a => f a | None => true end.

Definition test_attr (n : node) (t : attr_test) : bool :=
  match t with
  | AttrEquals a v =>
      match node_get n a with Some x => str_eqb x v | None => false end
  | AttrContains a v =>
      match node_get n a with Some x => contains x v | None => false end
  end.

Definition has_class (n : node) (c : str) : bool :=
  match node_get n (lit "class") with
  | Some v => existsb (str_eqb c) (words v)
  | None => false
  end.

Definition matches (c : compound) (n : node) : bool :=
  match n with
  | Element name _ _ =>
      opt_test (sel_name c) (str_eqb name) &&
      opt_test (sel_class c) (has_class n) &&
      opt_test (sel_attr c) (test_attr n)
  | NavigableString _ => false
  end.

Definition node_select (t : node) (selector : str) : list node :=
  match css selector css_table with
  | Some c => List.filter (matches c) (descendants t)
  | None => []
  end.

Definition node_select_one (t : node) (selector : str) : option node :=
  head (node_select t selector).

(** [get_text(strip=True)]: the stripped strings below the node, those
    that strip to nothing left out, joined without a separator. *)
Definition node_get_text (t : node) : str :=
  concat (List.filter truthy
            (flat_map (fun n => match n with
                                | NavigableString s => [strip s]
                                | Element _ _ _ => []
                                end) (descendants t))).

Definition named (name : str) (attrs : list str) (n : node) : bool :=
  match n with
  | Element name' _ _ =>
      str_eqb name name' &&
      forallb (fun a => bool_decide (is_Some (node_get n a))) attrs
  | NavigableString _ => false
  end.

Definition node_find (t : node) (name : str) (attrs : list str) : option node :=
  head (List.filter (named name attrs) (descendants t)).

(** [tag.string]: the string of a tag with a single child that has one. *)
Fixpoint node_string (n : node) : option str :=
  match n with
  | NavigableString s => Some s
  | Element _ _ [c] => node_string c
  | Element _ _ _ => None
  end.

Definition node_find_all_string (t : node) (names : list str)
  (f : option str -> bool) : list node :=
  List.filter
    (fun n => match n with
              | Element name _ _ =>
                  existsb (str_eqb name) names && f (node_string n)
              | NavigableString _ => false
              end) (descendants t).

(** ASCII digits and ASCII lower case. *)
Definition ascii_isdigit (c : char) : bool := (N.leb 48 c && N.leb c 57)%N.

Definition ascii_lower_char (c : char) : char :=
  if (N.leb 65 c && N.leb c 90)%N then (c + 32)%N else c.

Definition ascii_lower (s : str) : str := List.map ascii_lower_char s.

(** ** [urllib.parse.urljoin]

    After [urllib/parse.py] of CPython 3.11, for [str] arguments. Two
    checks of [urlsplit] are outside this reading: the validation of a
    bracketed host, so every authority with both brackets is reported as
    a [ValueError], and the NFKC check of a non-ASCII authority, which is
    taken to pass. *)

Definition uses_relative : list str :=
  List.map lit [""; "ftp"; "http"; "gopher"; "nntp"; "imap"; "wais"; "file";
                "https"; "shttp"; "mms"; "prospero"; "rtsp"; "rtspu"; "sftp";
                "svn"; "svn+ssh"; "ws"; "wss"]%string.

Definition uses_netloc : list str :=
  List.map lit [""; "ftp"; "http"; "gopher"; "nntp"; "telnet"; "imap"; "wais";
                "file"; "mms"; "https"; "shttp"; "snews"; "prospero"; "rtsp";
                "rtspu"; "rsync"; "svn"; "svn+ssh"; "sftp"; "nfs"; "git";
                "git+ssh"; "ws"; "wss"]%string.

Definition uses_params : list str :=
  List.map lit [""; "ftp"; "hdl"; "prospero"; "http"; "imap"; "https";
                "shttp"; "rtsp"; "rtspu"; "sip"; "sips"; "mms"; "sftp";
                "tel"]%string.

Definition mem (s : str) (l : list str) : bool := existsb (str_eqb s) l.

Definition is_char (a : string) (c : char) : bool :=
  existsb (N.eqb c) (lit a).

Definition ascii_isalpha (c : char) : bool :=
  ((N.leb 65 c && N.leb c 90) || (N.leb 97 c && N.leb c 122))%N.

Definition scheme_char (c : char) : bool :=
  ascii_isalpha c || ascii_isdigit c || is_char "+-." c.

(** The longest prefix of [s] free of [p], and the rest. *)
Fixpoint break (p : char -> bool) (s : str) : str * str :=
  match s with
  | [] => ([], [])
  | c :: s' =>
      if p c then ([], s)
      else let '(a, b) := break p s' in (c :: a, b)
  end.

(** [s.split(c)] *)
Fixpoint split_on (c : char) (s cur : str) : list str :=
  match s with
  | [] => [rev cur]
  | d :: s' =>
      if N.eqb c d then rev cur :: split_on c s' []
      else split_on c s' (d :: cur)
  end.

(** [sep.join(l)] *)
Fixpoint join (sep : str) (l : list str) : str :=
  match l with
  | [] => []
  | [a] => a
  | a :: l' => a ++ sep ++ join sep l'
  end.

Fixpoint lstrip_c0 (s : str) : str :=
  match s with
  | c :: s' => if N.leb c 32 then lstrip_c0 s' else s
  | [] => []
  end.

Record SplitResult := {
  scheme : str; netloc : str; path : str; query : str; fragment : str
}.

Definition urlsplit (url0 default_scheme : str) : exc SplitResult :=
  let url := List.filter (fun c => negb (N.eqb c 9 || N.eqb c 13 || N.eqb c 10))
               (lstrip_c0 url0) in
  let '(scheme, url) :=
    match break (is_char ":") url with
    | (c :: pre, _ :: post) =>
        if ascii_isalpha c && forallb scheme_char (c :: pre)
        then (ascii_lower (c :: pre), post)
        else (default_scheme, url)
    | _ => (default_scheme, url)
    end in
  let split_rest (netloc url : str) :=
    let '(url, fragment) :=
      match break (is_char "#") url with
      | (a, _ :: b) => (a, b)
      | (a, []) => (a, [])
      end in
    let '(url, query) :=
      match break (is_char "?") url with
      | (a, _ :: b) => (a, b)
      | (a, []) => (a, [])
      end in
    {| scheme := scheme; netloc := netloc; path := url; query := query;
       fragment := fragment |} in
  if startswith url (lit "//") then
    let '(netloc, url) := break (is_char "/?#") (drop 2 url) in
    if existsb (is_char "[") netloc || existsb (is_char "]") netloc
    then Raise (OtherException "ValueError")
    else Ret (split_rest netloc url)
  else Ret (split_rest [] url).

(** [_splitparams] *)
Definition splitparams (url : str) : str * str :=
  if existsb (is_char "/") url then
    let '(last_rev, dirs_rev) := break (is_char "/") (rev url) in
    match break (is_char ";") (rev last_rev) with
    | (a, _ :: b) => (rev dirs_rev ++ a, b)
    | (_, []) => (url, [])
    end
  else
    match break (is_char ";") url with
    | (a, _ :: b) => (a, b)
    | (_, []) => (removelast url, url)
    end.

Definition urlunparse (scheme netloc url params query fragment : str) : str :=
  let url := if truthy params then url ++ lit ";" ++ params else url in
  let url :=
    if truthy netloc ||
       (truthy scheme && mem scheme uses_netloc &&
        negb (startswith url (lit "//")))
    then lit "//" ++ netloc ++
         (if truthy url && negb (startswith url (lit "/"))
          then lit "/" ++ url else url)
    else url in
  let url := if truthy scheme then scheme ++ lit ":" ++ url else url in
  let url := if truthy query then url ++ lit "?" ++ query else url in
  if truthy fragment then url ++ lit "#" ++ fragment else url.

(** The loop over the segments of the merged path. *)
Fixpoint resolve (segments resolved_path : list str) : list str :=
  match segments with
  | [] => resolved_path
  | seg :: rest =>
      if str_eqb seg (lit "..") then resolve rest (removelast resolved_path)
      else if str_eqb seg (lit ".") then resolve rest resolved_path
      else resolve rest (resolved_path ++ [seg])
  end.

(** [segments[1:-1] = filter(None, segments[1:-1])] *)
Definition drop_inner_empty (segments : list str) : list str :=
  match segments with
  | first :: (_ :: _) as rest =>
      first :: List.filter truthy (removelast rest) ++ [List.last rest []]
  | _ => segments
  end.

Definition with_params (r : SplitResult) : str * str :=
  if mem (scheme r) uses_params && existsb (is_char ";") (path r)
  then splitparams (path r) else (path r, []).

Definition py_urljoin (base url : str) : exc str :=
  if negb (truthy base) then Ret url
  else if negb (truthy url) then Ret base
  else
    (b <- urlsplit base [] ;;
     u <- urlsplit url (scheme b) ;;
     let '(bpath, bparams) := with_params b in
     let '(upath, params) := with_params u in
     if negb (str_eqb (scheme u) (scheme b)) || negb (mem (scheme u) uses_relative)
     then Ret url
     else if mem (scheme u) uses_netloc && truthy (netloc u)
     then Ret (urlunparse (scheme u) (netloc u) upath params (query u)
                 (fragment u))
     else
       let netloc :=
         if mem (scheme u) uses_netloc then netloc b else netloc u in
       if negb (truthy upath) && negb (truthy params)
       then Ret (urlunparse (scheme u) netloc bpath bparams
                   (if truthy (query u) then query u else query b)
                   (fragment u))
       else
         let base_parts := split_on 47%N bpath [] in
         let base_parts :=
           if truthy (List.last base_parts []) then removelast base_parts
           else base_parts in
         let segments :=
           if startswith upath (lit "/") then split_on 47%N upath []
           else drop_inner_empty (base_parts ++ split_on 47%N upath []) in
         let resolved_path := resolve segments [] in
         let resolved_path :=
           if mem (List.last segments []) [lit "."; lit ".."]
           then resolved_path ++ [[]] else resolved_path in
         let joined := join (lit "/") resolved_path in
         Ret (urlunparse (scheme u) netloc
                (if truthy joined then joined else lit "/")
                params (query u) (fragment u)))%exc.

(** ** Files

    A flat file system: a path is a directory ([None]) or a file with its
    text. Parent directories are not checked. *)

Abbreviation files := (gmap str (option str)).

Definition fs_makedirs (p : str) (m : files) : exc files :=
  match m !! p with
  | Some None => Ret m
  | Some (Some _) => Raise (OtherException "FileExistsError")
  | None => Ret (<[p := None]> m)
  end.

Definition fs_open_w (p : str) (m : files) : exc files :=
  match m !! p with
  | Some None => Raise (OtherException "IsADirectoryError")
  | _ => Ret (<[p := Some []]> m)
  end.

Definition fs_write (p s : str) (m : files) : exc files :=
  match m !! p with
  | Some (Some text) => Ret (<[p := Some (text ++ s)]> m)
  | _ => Raise (OtherException "ValueError")
  end.

(** A [csv] line with minimal quoting and the default terminator. *)
Definition csv_field (f : str) : str :=
  if existsb (fun c => N.eqb c 44 || N.eqb c 34 || N.eqb c 13 || N.eqb c 10) f
  then dquote ++ flat_map (fun c => if N.eqb c 34 then [c; c] else [c]) f
       ++ dquote
  else f.

Definition fx_csv_row (r : list str) : str :=
  join (lit ",") (List.map csv_field r) ++ [13%N; 10%N].

(** A [json] text with an indent of two; of the control characters only
    the line feed, the carriage return and the tab are escaped. *)
Definition json_string (s : str) : str :=
  dquote ++
  flat_map (fun c =>
              if N.eqb c 34 then 92%N :: dquote
              else if N.eqb c 92 then [92%N; 92%N]
              else if N.eqb c 10 then lit "\n"
              else if N.eqb c 13 then lit "\r"
              else if N.eqb c 9 then lit "\t"
              else [c]) s ++
  dquote.

Definition json_object (d : item) : str :=
  match d with
  | [] => lit "{}"
  | _ =>
      lit "  {" ++ [10%N] ++
      join (lit "," ++ [10%N])
        (List.map (fun kv => lit "    " ++ json_string (lit (fst kv)) ++
                             lit ": " ++ json_string (snd kv)) d) ++
      [10%N] ++ lit "  }"
  end.

Definition fx_json_dumps (l : list item) : str :=
  match l with
  | [] => lit "[]"
  | _ =>
      lit "[" ++ [10%N] ++ join (lit "," ++ [10%N]) (List.map json_object l) ++
      [10%N] ++ lit "]"
  end.

(** ** [time.sleep]

    After CPython 3.11 on a 64-bit Linux: the length is turned into
    nanoseconds, rounded away from zero; outside of [-2^63 .. 2^63] this
    is an [OverflowError]; the nanoseconds are then cast to 64 bits,
    where [2^63] wraps around to [-2^63]; a negative length is a
    [ValueError]. The arithmetic of the float is read exactly, and the
    system call is taken to succeed: the [OSError] of a clock that cannot
    take a pause of centuries is left out of this sample. The bounds are
    written with the constant on the left. *)

Definition sleep_ns (secs : Q) : Z :=
  let n := Qnum secs * 10 ^ 9 in
  let d := Zpos (Qden secs) in
  if 0 <=? n then - ((- n) / d) else n / d.

Definition py_sleep (secs : Q) : exc unit :=
  let ns := sleep_ns secs in
  if (- 2 ^ 63 <=? ns) && (2 ^ 63 >=? ns)
  then
    let t := if 2 ^ 63 =? ns then - 2 ^ 63 else ns in
    if t <? 0 then Raise (OtherException "ValueError") else Ret tt
  else Raise (OtherException "OverflowError").

(** ** The library, for a given network

    A body is a parsed tree, or [None] for markup the parser rejects. *)

Definition library
  (network : list event -> str -> Z -> exc (Response (option node)))
  : Library :=
  {| Tag := node;
     Content := option node;
     FS := files;
     isdigit := ascii_isdigit;
     lower := ascii_lower;
     BeautifulSoup := fun b =>
       match b with
       | Some t => Ret t
       | None => Raise (OtherException "ParserRejectedMarkup")
       end;
     bs_select := node_select;
     bs_select_one := node_select_one;
     bs_get_text := node_get_text;
     bs_find := node_find;
     bs_find_all_string := node_find_all_string;
     bs_get := node_get;
     urljoin := py_urljoin;
     session_get := network;
     time_sleep := py_sleep;
     makedirs := fs_makedirs;
     open_w := fs_open_w;
     write := fs_write;
     csv_row := fx_csv_row;
     json_dumps := fx_json_dumps |}.

(** A network that answers from a table of pages and refuses the
    connection for every other URL. *)
Fixpoint serve (pages : list (str * (Z * option node))) (url : str)
  : exc (Response (option node)) :=
  match pages with
  | [] => Raise (RequestException "ConnectionError")
  | (u, (status, body)) :: pages' =>
      if str_eqb url u
      then Ret {| status_code := status; content := body |}
      else serve pages' url
  end.

Definition network_of (pages : list (str * (Z * option node)))
  : list event -> str -> Z -> exc (Response (option node)) :=
  fun _ url _ => serve pages url.

(** ** Sample pages *)

(** A well-formed card: title, price with the rupee sign, location, a
    root-relative link and an image. *)
Definition card1 : node :=
  el "li" [("class", "EIR5N")]
    [ el "a" [("href", "/item/car-cover-iid-1")]
        [ el "img" [("src", "https://img.olx.in/1.jpg")] [];
          el "span" [("class", "_2b6f3")]
            [NavigableString (rupee :: lit " 500")];
          el "h6" [] [txt " Car body cover "];
          el "span" [("class", "_2e28f")] [txt "Pune"] ] ].

(** A card whose title element is empty and whose first price candidate
    has no digit. *)
Definition card2 : node :=
  el "li" [("class", "EIR5N")]
    [ el "h6" [] [txt "  "];
      el "span" [("class", "_2b6f3")] [txt "Negotiable"];
      el "span" [("class", "price")] [txt "1200 only"];
      el "a" [("href", "https://www.olx.in/item/2")] [] ].

(** A card whose link is a relative reference that begins with the
    letters of the scheme test. *)
Definition card3 : node :=
  el "li" [("class", "EIR5N")]
    [ el "h6" [] [txt "Seat cover"];
      el "a" [("href", "httpcovers/item-3")] [] ].

(** A card whose link has an unbalanced bracket in its authority. *)
Definition card4 : node :=
  el "li" [("class", "EIR5N")]
    [ el "h6" [] [txt "Bike cover"];
      el "a" [("href", "//[broken")] [] ].

Definition page_of (cards : list node) : node :=
  el "html" [] [el "body" [] [el "ul" [] cards]].

Definition scraper : OLXScraper :=
  {| base_url := lit "https://www.olx.in/items/q-car-cover";
     delay := 3 # 2;
     results := [] |}.

Definition site : list (str * (Z * option node)) :=
  [ (lit "https://www.olx.in/items/q-car-cover",
     (200, Some (page_of [card1; card2; card3; card4])));
    (lit "https://www.olx.in/items/q-car-cover?page=2", (503, None));
    (lit "https://www.olx.in/items/q-car-cover?page=3",
     (200, Some (page_of [card3]))) ].

Definition lib : Library := library (network_of site).

(** The state before a run: nothing sent, no file. *)
Definition start : @World lib := @Build_World lib [] (∅ : files).

(** The records of [card1], [card2] and [card3]. *)
Definition record1 : item :=
  [("title", lit "Car body cover"); ("price", rupee :: lit " 500");
   ("location", lit "Pune");
   ("url", lit "https://www.olx.in/item/car-cover-iid-1");
   ("image_url", lit "https://img.olx.in/1.jpg")]%string.

Definition record2 : item :=
  [("title", NA); ("price", lit "1200 only"); ("location", NA);
   ("url", lit "https://www.olx.in/item/2"); ("image_url", NA)]%string.

Definition record3 : item :=
  [("title", lit "Seat cover"); ("price", NA); ("location", NA);
   ("url", lit "httpcovers/item-3"); ("image_url", NA)]%string.

End Fixture.

(** * Vocabulary of the statements *)

(** The page numbers [1 .. n]. *)
Definition pages_upto (n : Z) : list Z := List.map Z.of_nat (seq 1 (Z.to_nat n)).

(** A price text carries a mark when it has the rupee sign or a digit. *)
Definition price_mark `{Library} (t : str) : Prop :=
  rupee ∈ t \/ Exists (fun c => isdigit c = true) t.

Definition no_price_mark `{Library} (t : str) : Prop :=
  (rupee ∉ t) /\ Forall (fun c => isdigit c = false) t.

(** The text of a selector candidate, when the selector matches. *)
Definition candidate_text `{Library} (item_card : Tag) (selector : str)
  : option str :=
  bs_get_text <$> bs_select_one item_card selector.

(** A price candidate is passed over when it matches nothing or its text
    carries no mark. *)
Definition passed_over `{Library} (item_card : Tag) (selector : str) : Prop :=
  match candidate_text item_card selector with
  | Some t => no_price_mark t
  | None => True
  end.

(** A record is valid when its title is not the sentinel. *)
Definition has_title (d : item) : Prop :=
  exists t, dict_get d "title" = Some t /\ t <> NA.

(** The records a card contributes to its page: its record when the
    extractor returns one with a title other than the sentinel. *)
Definition kept `{Library} (item_card : Tag) : list item :=
  match extract_item_data item_card with
  | Some d =>
      match dict_get d "title" with
      | Some t => if decide (t = NA) then [] else [d]
      | None => []
      end
  | None => []
  end.

(** The effects of page [k] of a run of [n] pages. *)
Definition page_events (self : OLXScraper) (n k : Z) : list event :=
  EvGet (get_page_url self k) 15 ::
  if k <? n then [EvSleep (delay self)] else [].

(** The effects of a whole run of [n] pages. *)
Definition run_events (self : OLXScraper) (n : Z) : list event :=
  flat_map (page_events self n) (pages_upto n).

(** The state in which page [k] of a run of [n] pages is scraped, when
    the run starts in [w]. *)
Definition world_at `{Library} (self : OLXScraper) (n : Z) (w : World) (k : Z)
  : World :=
  {| trace := trace w ++ flat_map (page_events self n) (pages_upto (k - 1));
     fs := fs w |}.

(** What [scrape_page] returns in a given state. *)
Definition page_items `{Library} (self : OLXScraper) (k : Z) (w : World)
  : list item :=
  match fst (scrape_page self k w) with
  | Ret r => r
  | Raise _ => []
  end.

(** A page is processed when the request is answered with a status that
    [raise_for_status] accepts and the body parses. *)
Definition processed `{Library} (self : OLXScraper) (k : Z) (w : World)
  (soup : Tag) : Prop :=
  exists response,
    session_get (trace w) (get_page_url self k) 15 = Ret response /\
    raise_for_status response = Ret tt /\
    BeautifulSoup (content response) = Ret soup.

(** The same library with another [select]. *)
Definition with_select (L : Library)
  (f : @Tag L -> str -> list (@Tag L)) : Library :=
  {| Tag := @Tag L;
     Content := @Content L;
     FS := @FS L;
     isdigit := @isdigit L;
     lower := @lower L;
     BeautifulSoup := @BeautifulSoup L;
     bs_select := f;
     bs_select_one := @bs_select_one L;
     bs_get_text := @bs_get_text L;
     bs_find := @bs_find L;
     bs_find_all_string := @bs_find_all_string L;
     bs_get := @bs_get L;
     urljoin := @urljoin L;
     session_get := @session_get L;
     time_sleep := @time_sleep L;
     makedirs := @makedirs L;
     open_w := @open_w L;
     write := @write L;
     csv_row := @csv_row L;
     json_dumps := @json_dumps L |}.

(** The notion of an absolute URL in the words of RFC 3986: a reference
    that begins with a scheme, a letter followed by letters, digits,
    [+], [-] or [.], and a colon. *)
Definition absolute_reference (href : str) : bool :=
  match Fixture.break (Fixture.is_char ":") href with
  | (c :: pre, _ :: _) =>
      Fixture.ascii_isalpha c && forallb Fixture.scheme_char pre
  | _ => false
  end.

(** The url field as C5 words it, on one card: the href of the link is
    kept when it is an absolute URL and is otherwise the url joined to
    the origin. *)
Definition url_as_claimed `{Library} (item_card : Tag) : Prop :=
  forall link href d,
    bs_find item_card (lit "a") [lit "href"] = Some link ->
    bs_get link (lit "href") = Some href ->
    extract_item_data item_card = Some d ->
    if absolute_reference href then dict_get d "url" = Some href
    else exists url,
           urljoin origin href = Ret url /\ dict_get d "url" = Some url.

(** * The rest of the program *)

(** ** [__init__]

    The constructor stores its two arguments and starts with no result.
    The session and its headers belong to the network of the library. *)

Definition default_base_url : str := lit "https://www.olx.in/items/q-car-cover".

Definition default_delay : Q := 3 # 2.

Definition OLXScraper_init (base_url : str) (delay : Q) : OLXScraper :=
  {| base_url := base_url; delay := delay; results := [] |}.

(** ** [print_summary]

    The method only prints. It is modelled by the strings it hands to
    [print], one per call, when it returns; a record without one of the
    keys it reads makes it raise [KeyError]. *)

(** Line 214. *)
Definition url_line (url : str) : str :=
  if (50 <? length url)%nat
  then lit "   URL: " ++ take 50 url ++ lit "..."
  else lit "   URL: " ++ url.

(** The four [print] calls of one turn of the loop, for [enumerate]
    index [i]. *)
Definition summary_item (i : nat) (d : item) : exc (list str) :=
  (title <- dict_getitem d "title" ;;
   price <- dict_getitem d "price" ;;
   location <- dict_getitem d "location" ;;
   url <- dict_getitem d "url" ;;
   Ret [ [10%N] ++ str_of_int (Z.of_nat i + 1) ++ lit ". " ++ title;
         lit "   Price: " ++ price;
         lit "   Location: " ++ location;
         url_line url ])%exc.

(** The loop over [enumerate(self.results[:3])], from index [i] on. *)
Fixpoint summary_items (i : nat) (l : list item) : exc (list str) :=
  match l with
  | [] => Ret []
  | d :: l' =>
      (lines <- summary_item i d ;;
       rest <- summary_items (S i) l' ;;
       Ret (lines ++ rest))%exc
  end.

Definition print_summary (self : OLXScraper) : exc (list str) :=
  match results self with
  | [] => Ret [lit "No data found!"]
  | _ :: _ =>
      (items <- summary_items 0 (take 3 (results self)) ;;
       Ret ([ [10%N] ++ lit "--- SCRAPING SUMMARY ---";
              lit "Total items found: " ++
                str_of_int (Z.of_nat (length (results self)));
              lit "Sample items:" ] ++ items))%exc
  end.

(** ** [main]

    The parsed command line is a record of the four options. What [main]
    prints itself is not modelled. *)

Record Args := {
  pages : Z;
  arg_delay : Q;
  output_csv : str;
  output_json : str
}.

(** The defaults of the parser. *)
Definition default_args : Args :=
  {| pages := 3;
     arg_delay := default_delay;
     output_csv := lit "olx_car_covers.csv";
     output_json := lit "olx_car_covers.json" |}.

Definition main `{Library} (args : Args) : M unit :=
  (let scraper := OLXScraper_init default_base_url (arg_delay args) in
   run <- scrape_multiple_pages scraper (pages args) ;;
   let '(results, scraper) := run in
   match results with
   | _ :: _ =>
       csv_path <- save_to_csv scraper (output_csv args) ;;
       json_path <- save_to_json scraper (output_json args) ;;
       _ <- lift (print_summary scraper) ;;
       io_ret tt
   | [] => io_ret tt
   end)%io.

(** ** More vocabulary *)

(** File system calls, one after the other, up to the first that raises. *)
Fixpoint fs_seq `{Library} (ops : list (FS -> exc FS)) : M unit :=
  match ops with
  | [] => io_ret tt
  | op :: rest => (_ <- on_fs op ;; fs_seq rest)%io
  end.


Definition is_get (e : event) : bool :=
  match e with EvGet _ _ => true | EvSleep _ => false end.

Definition is_sleep (e : event) : bool :=
  match e with EvGet _ _ => false | EvSleep _ => true end.

(** The question mark, U+003F. *)
Definition qmark : char := 63%N.

(** A card with a title element that has text, a price candidate without
    a digit and no link. *)
Definition card5 : Fixture.node :=
  Fixture.el "div" [("class", "item-card")]%string
    [ Fixture.el "span" [("class", "title")]%string [Fixture.txt "Cover XL"];
      Fixture.el "span" [("class", "price")]%string [Fixture.txt "Call me"];
      Fixture.el "img" [("src", "img/5.jpg")]%string [] ].

Definition record5 : item :=
  [("title", lit "Cover XL"); ("price", NA); ("location", NA); ("url", NA);
   ("image_url", lit "img/5.jpg")]%string.

(** A card whose title is the text of the sentinel. *)
Definition card6 : Fixture.node :=
  Fixture.el "li" [("class", "EIR5N")]%string
    [ Fixture.el "h6" [] [Fixture.txt "N/A"] ].

(** A scraper with a negative delay. *)
Definition hasty : OLXScraper :=
  {| base_url := default_base_url; delay := -1 # 2; results := [] |}.

(** A file system in which [output] is a file. *)
Definition blocked : @World Fixture.lib :=
  @Build_World Fixture.lib []
    (<[lit "output" := Some []]> (∅ : Fixture.files)).

(** A library whose network refuses every connection. *)
Definition offline : Library := Fixture.library (Fixture.network_of []).

Definition offline_start : @World offline :=
  @Build_World offline [] (∅ : Fixture.files).

(** The command line [--pages 2 --delay -0.5]. *)
Definition hasty_args : Args :=
  {| pages := 2;
     arg_delay := -1 # 2;
     output_csv := lit "olx_car_covers.csv";
     output_json := lit "olx_car_covers.json" |}.

(** ** The claims on the run, in the words of the specification *)

(** The run as C3 words it, with no condition on the delay: for
    [max_pages >= 1] the run requests every page from 1 to [max_pages]
    in order and pauses after every page but the last, and it returns
    the lists of the pages, appended in page order. *)
Definition run_as_claimed `{Library} (self : OLXScraper) (max_pages : Z)
  (w : World) : Prop :=
  1 <= max_pages ->
  exists r self' w',
    scrape_multiple_pages self max_pages w = (Ret (r, self'), w') /\
    r = flat_map (fun k => page_items self k (world_at self max_pages w k))
          (pages_upto max_pages) /\
    trace w' = trace w ++ run_events self max_pages.

(** A success status in the words of the specification: one of the
    class 2xx. *)
Definition success_status (status : Z) : bool :=
  (200 <=? status) && (status <? 300).

(** A page as C7 words it: a reply whose status is not a success yields
    no record. *)
Definition page_as_claimed `{Library} (self : OLXScraper) (k : Z) (w : World)
  : Prop :=
  forall response,
    session_get (trace w) (get_page_url self k) 15 = Ret response ->
    success_status (status_code response) = false ->
    page_items self k w = [].

(** A site that answers the search URL with the status 300, Multiple
    Choices, and a body with one card. *)
Definition undecided_site : list (str * (Z * option Fixture.node)) :=
  [ (lit "https://www.olx.in/items/q-car-cover",
     (300, Some (Fixture.page_of [Fixture.card3]))) ].

Definition undecided : Library :=
  Fixture.library (Fixture.network_of undecided_site).

Definition undecided_start : @World undecided :=
  @Build_World undecided [] (∅ : Fixture.files).

(** A scraper with a delay of ten thousand million seconds. *)
Definition patient : OLXScraper :=
  {| base_url := default_base_url; delay := 10000000000 # 1; results := [] |}.

(** * Strings *)

Lemma lit_inj (s t : string) : lit s = lit t -> s = t.
Proof.
  unfold lit.
  revert t; induction s as [|a s IH]; intros [|b t]; simpl; try discriminate.
  - reflexivity.
  - intros Hst. injection Hst as Hab Hst.
    f_equal.
    + rewrite <- (ascii_N_embedding a), <- (ascii_N_embedding b).
      now rewrite Hab.
    + now apply IH.
Qed.

Lemma to_int_not_nil (n : Z) :
  Z.to_int n <> Decimal.Pos Decimal.Nil /\ Z.to_int n <> Decimal.Neg Decimal.Nil.
Proof.
  destruct n as [|p|p]; simpl; split; try discriminate;
    intros [= E]; exact (DecimalPos.Unsigned.to_uint_nonnil p E).
Qed.

Lemma str_of_int_inj (a b : Z) : str_of_int a = str_of_int b -> a = b.
Proof.
  unfold str_of_int. intros E%lit_inj.
  apply DecimalZ.to_int_inj.
  destruct (to_int_not_nil a) as [Ha1 Ha2], (to_int_not_nil b) as [Hb1 Hb2].
  pose proof (NilZero.isi _ Ha1 Ha2) as Ia.
  pose proof (NilZero.isi _ Hb1 Hb2) as Ib.
  rewrite E in Ia. congruence.
Qed.

Lemma startswith_spec (s p : str) :
  startswith s p = true <-> exists rest, s = p ++ rest.
Proof.
  revert s; induction p as [|c p IH]; intros s.
  - split; [exists s; reflexivity | now destruct s].
  - destruct s as [|d s].
    + split; [discriminate | intros [rest [=]]].
    + change (startswith (d :: s) (c :: p))
        with (if N.eqb c d then startswith s p else false).
      destruct (N.eqb_spec c d) as [->|Hne].
      * rewrite IH. split; intros [rest E]; exists rest; simpl in *; congruence.
      * split; [discriminate | intros [rest [= E _]]; congruence].
Qed.

Lemma contains_spec (s sub : str) :
  contains s sub = true <-> exists a b, s = a ++ sub ++ b.
Proof.
  induction s as [|c s IH]; cbn [contains].
  - rewrite orb_false_r, startswith_spec. split.
    + intros [rest E]. exists [], rest. exact E.
    + intros [a [b E]]. destruct a; simpl in E; [eauto | discriminate].
  - rewrite orb_true_iff, startswith_spec, IH. split.
    + intros [[rest E] | [a [b E]]].
      * exists [], rest. exact E.
      * exists (c :: a), b. simpl. congruence.
    + intros [[|c' a] [b E]]; simpl in E.
      * left. eauto.
      * right. injection E as _ E. eauto.
Qed.

Lemma contains_char (s : str) (c : char) : contains s [c] = true <-> c ∈ s.
Proof.
  rewrite contains_spec. split.
  - intros [a [b ->]]. set_solver.
  - intros [a [b ->]]%list_elem_of_split. exists a, b. reflexivity.
Qed.

(** * The page URL *)

Lemma get_page_url_paged (self : OLXScraper) (k : Z) :
  k <> 1 ->
  get_page_url self k = base_url self ++ lit "?page=" ++ str_of_int k.
Proof.
  intros Hk. unfold get_page_url.
  destruct (Z.eqb_spec k 1) as [->|_]; [congruence | reflexivity].
Qed.

(** C2. Page 1 is fetched from the base URL itself, with nothing appended;
    every page [k > 1] is fetched from the base URL followed by [?page=]
    and the decimal text of [k]. *)
Theorem get_page_url_spec (self : OLXScraper) (k : Z) :
  1 < k ->
  get_page_url self 1 = base_url self /\
  get_page_url self k = base_url self ++ lit "?page=" ++ str_of_int k.
Proof.
  intros Hk. split; [reflexivity|].
  apply get_page_url_paged. lia.
Qed.

Lemma app_nonempty_neq (s t : str) : t <> [] -> s <> s ++ t.
Proof.
  intros Ht E. apply (f_equal length) in E.
  rewrite length_app in E. destruct t; [congruence | simpl in E; lia].
Qed.

(** C10. For a fixed base URL, page numbers from 1 on are mapped to
    pairwise distinct URLs: the URL of page 1 is a strict prefix of the
    URL of every later page, and later pages differ in the number after
    [?page=]. *)
Theorem get_page_url_injective (self : OLXScraper) (j k : Z) :
  1 <= j -> 1 <= k ->
  (get_page_url self j = get_page_url self k -> j = k) /\
  (1 < k ->
   exists suffix,
     suffix = lit "?page=" ++ str_of_int k /\ suffix <> [] /\
     get_page_url self k = get_page_url self 1 ++ suffix).
Proof.
  intros Hj Hk. split.
  - unfold get_page_url.
    destruct (Z.eqb_spec j 1) as [->|Hj1], (Z.eqb_spec k 1) as [->|Hk1];
      intros E; try reflexivity.
    + exfalso. revert E. now apply app_nonempty_neq.
    + exfalso. symmetry in E. revert E. now apply app_nonempty_neq.
    + apply app_inv_head in E. apply app_inv_head in E.
      now apply str_of_int_inj.
  - intros Hk1. eexists. split; [reflexivity|]. split; [discriminate|].
    apply get_page_url_paged. lia.
Qed.

(** * The field extractor *)

Lemma py_or_nonempty (x : option str) : py_or x NA <> [].
Proof.
  unfold py_or. destruct x as [[|c s]|]; simpl; discriminate.
Qed.

Lemma py_or_truthy (s : str) : s <> [] -> py_or (Some s) NA = s.
Proof. destruct s; [congruence | reflexivity]. Qed.

Lemma record_fields (a b c u i : str) :
  let d := [("title", a); ("price", b); ("location", c); ("url", u);
            ("image_url", i)]%string in
  dict_get d "title" = Some a /\ dict_get d "price" = Some b /\
  dict_get d "location" = Some c /\ dict_get d "url" = Some u /\
  dict_get d "image_url" = Some i.
Proof. repeat split. Qed.

(** A returned record is the dict literal of lines 85 to 91, built from
    the five extracted values. *)
Lemma extract_item_data_Some `{Library} (item_card : Tag) (d : item) :
  extract_item_data item_card = Some d ->
  exists url image_url,
    extract_url item_card = Ret url /\
    extract_image_url item_card = Ret image_url /\
    d = [("title", py_or (first_text title_selectors item_card) NA);
         ("price", py_or (first_price price_selectors item_card) NA);
         ("location", py_or (first_text location_selectors item_card) NA);
         ("url", py_or url NA);
         ("image_url", py_or image_url NA)].
Proof.
  unfold extract_item_data, extract_item_data_try.
  destruct (extract_url item_card) as [url|e]; simpl; [|discriminate].
  destruct (extract_image_url item_card) as [img|e]; simpl; [|discriminate].
  intros [= <-]. eauto.
Qed.

Lemma extract_item_data_None `{Library} (item_card : Tag) :
  extract_item_data item_card = None <->
  exists e, extract_item_data_try item_card = Raise e.
Proof.
  unfold extract_item_data.
  destruct (extract_item_data_try item_card) as [d|e].
  - split; [discriminate | intros [e' [=]]].
  - split; eauto.
Qed.

Lemma looks_like_price_true `{Library} (t : str) :
  looks_like_price t = true <-> price_mark t.
Proof.
  unfold looks_like_price, price_mark.
  rewrite orb_true_iff, contains_char, existsb_exists, Exists_exists.
  split; (intros [Hr | [c [Hc Hd]]]; [now left | right; exists c]);
    now rewrite ?list_elem_of_In in *.
Qed.

Lemma looks_like_price_false `{Library} (t : str) :
  looks_like_price t = false <-> no_price_mark t.
Proof.
  unfold no_price_mark. rewrite <- not_true_iff_false, looks_like_price_true.
  unfold price_mark. rewrite Forall_forall, Exists_exists. split.
  - intros Hn. split; [tauto|]. intros c Hc.
    apply not_true_iff_false. intros Hd. apply Hn. right. eauto.
  - intros [Hr Hd] [Hr' | [c [Hc Hc']]]; [tauto|].
    specialize (Hd c Hc). congruence.
Qed.

(** Candidates that are passed over leave the loop where it was. *)
Lemma first_price_passed_over `{Library} (item_card : Tag) (pre rest : list str) :
  Forall (passed_over item_card) pre ->
  first_price (pre ++ rest) item_card = first_price rest item_card.
Proof.
  induction 1 as [|s pre Hs _ IH]; [reflexivity|].
  simpl. unfold passed_over, candidate_text in Hs.
  destruct (bs_select_one item_card s) as [e|]; simpl in Hs; [|exact IH].
  apply looks_like_price_false in Hs. now rewrite Hs.
Qed.

Lemma first_price_accepts `{Library} (item_card : Tag) (s : str)
  (rest : list str) (t : str) :
  candidate_text item_card s = Some t -> price_mark t ->
  first_price (s :: rest) item_card = Some t.
Proof.
  unfold candidate_text. simpl.
  destruct (bs_select_one item_card s) as [e|]; simpl; [|discriminate].
  intros [= <-] Hm%looks_like_price_true. now rewrite Hm.
Qed.

Lemma price_mark_nonempty `{Library} (t : str) : price_mark t -> t <> [].
Proof.
  intros [Hr | He] ->; [set_solver | now apply Exists_nil in He].
Qed.

(** C4. The price of a returned record is decided candidate by candidate:
    a candidate that matches nothing, or whose text has neither the rupee
    sign nor a digit, is passed over and the next one is tried; the first
    candidate whose text has a digit or the rupee sign gives the price;
    when every candidate is passed over the price is the sentinel. *)
Theorem extract_price_spec `{Library} (item_card : Tag) (d : item) :
  extract_item_data item_card = Some d ->
  (forall pre s post t,
     price_selectors = pre ++ s :: post ->
     Forall (passed_over item_card) pre ->
     candidate_text item_card s = Some t ->
     price_mark t ->
     dict_get d "price" = Some t) /\
  (Forall (passed_over item_card) price_selectors ->
   dict_get d "price" = Some NA).
Proof.
  intros (url & img & _ & _ & ->)%extract_item_data_Some. split.
  - intros pre s post t E Hpre Ht Hm.
    rewrite (proj1 (proj2 (record_fields _ _ _ _ _))). f_equal.
    rewrite E, first_price_passed_over by exact Hpre.
    rewrite (first_price_accepts _ _ _ _ Ht Hm).
    apply py_or_truthy. now apply price_mark_nonempty.
  - intros Hall.
    rewrite (proj1 (proj2 (record_fields _ _ _ _ _))). f_equal.
    rewrite <- (app_nil_r price_selectors).
    now rewrite first_price_passed_over.
Qed.

(** C5, as the code has it. For a card with a link: an href that begins
    with the four letters [http] is the url of the record, unchanged,
    whether or not it is an absolute URL; any other href is joined to the
    origin [https://www.olx.in] by [urljoin], and the result is the url of
    the record (the sentinel if the result is empty). *)
Theorem extract_url_spec `{Library} (item_card link : Tag) (href : str)
  (d : item) :
  bs_find item_card (lit "a") [lit "href"] = Some link ->
  bs_get link (lit "href") = Some href ->
  extract_item_data item_card = Some d ->
  (startswith href (lit "http") = true -> dict_get d "url" = Some href) /\
  (startswith href (lit "http") = false ->
   exists url,
     urljoin origin href = Ret url /\
     dict_get d "url" = Some (py_or (Some url) NA)).
Proof.
  intros Hfind Hget (url & img & Hurl & _ & ->)%extract_item_data_Some.
  rewrite (proj1 (proj2 (proj2 (proj2 (record_fields _ _ _ _ _))))).
  unfold extract_url, bs_getitem in Hurl. rewrite Hfind, Hget in Hurl.
  simpl in Hurl. split; intros Hs; rewrite Hs in Hurl; simpl in Hurl.
  - injection Hurl as <-. f_equal. apply py_or_truthy.
    intros ->. discriminate.
  - destruct (urljoin origin href) as [r|e]; simpl in Hurl; [|discriminate].
    injection Hurl as <-. eauto.
Qed.

Lemma first_text_skips `{Library} (item_card : Tag) (pre rest : list str) :
  Forall (fun s => bs_select_one item_card s = None) pre ->
  first_text (pre ++ rest) item_card = first_text rest item_card.
Proof.
  induction 1 as [|s pre Hs _ IH]; [reflexivity|].
  simpl. now rewrite Hs.
Qed.

(** The loop of lines 131 to 134 appends, card by card, what each card
    contributes; the lookup of the title never raises. *)
Lemma collect_valid_spec `{Library} (items_found : list Tag) (acc : list item) :
  collect_valid items_found acc = Ret (acc ++ flat_map kept items_found).
Proof.
  revert acc; induction items_found as [|card rest IH]; intros acc.
  - simpl. now rewrite app_nil_r.
  - cbn [collect_valid flat_map]. unfold kept at 1.
    destruct (extract_item_data card) as [d|] eqn:E.
    + apply extract_item_data_Some in E as (url & img & _ & _ & ->).
      unfold dict_getitem.
      rewrite (proj1 (record_fields _ _ _ _ _)). cbn [exc_bind].
      destruct (decide (py_or (first_text title_selectors card) NA = NA)).
      * apply IH.
      * rewrite IH. now rewrite <- app_assoc.
    + apply IH.
Qed.

(** C9. A returned record has exactly the five fields [title], [price],
    [location], [url] and [image_url], in this order, and none of them is
    the empty string: an extracted value that is empty is replaced by the
    sentinel. In particular, when the first title selector that matches
    finds an element with empty text, the title is the sentinel and the
    page loop drops the record. *)
Theorem extract_item_data_shape `{Library} (item_card : Tag) (d : item) :
  extract_item_data item_card = Some d ->
  dict_keys d = ["title"; "price"; "location"; "url"; "image_url"]%string /\
  Forall (fun v => v <> []) (dict_values d) /\
  (first_text title_selectors item_card = Some [] ->
   dict_get d "title" = Some NA) /\
  (first_text location_selectors item_card = Some [] ->
   dict_get d "location" = Some NA) /\
  (extract_url item_card = Ret (Some []) -> dict_get d "url" = Some NA) /\
  (forall img,
     bs_find item_card (lit "img") [] = Some img ->
     bs_get img (lit "src") = Some [] ->
     dict_get d "image_url" = Some NA) /\
  (forall pre s post elem,
     title_selectors = pre ++ s :: post ->
     Forall (fun s' => bs_select_one item_card s' = None) pre ->
     bs_select_one item_card s = Some elem ->
     bs_get_text elem = [] ->
     dict_get d "title" = Some NA /\
     forall before after acc,
       collect_valid (before ++ item_card :: after) acc =
       collect_valid (before ++ after) acc).
Proof.
  intros Hd.
  pose proof Hd as (url & img & Hurl & Himg & ->)%extract_item_data_Some.
  split; [reflexivity|]. split.
  { unfold dict_values. cbn [List.map snd].
    repeat (apply Forall_cons; split; [apply py_or_nonempty|]).
    apply Forall_nil_2. }
  assert (Htitle : forall pre s post elem,
             title_selectors = pre ++ s :: post ->
             Forall (fun s' => bs_select_one item_card s' = None) pre ->
             bs_select_one item_card s = Some elem ->
             bs_get_text elem = [] ->
             first_text title_selectors item_card = Some []).
  { intros pre s post elem E Hpre Hs Ht.
    rewrite E, first_text_skips by exact Hpre. simpl. now rewrite Hs, Ht. }
  split; [|split; [|split; [|split]]].
  - intros E. rewrite (proj1 (record_fields _ _ _ _ _)). now rewrite E.
  - intros E.
    rewrite (proj1 (proj2 (proj2 (record_fields _ _ _ _ _)))). now rewrite E.
  - intros E. rewrite E in Hurl. injection Hurl as <-.
    now rewrite (proj1 (proj2 (proj2 (proj2 (record_fields _ _ _ _ _))))).
  - intros i Hfind Hsrc.
    rewrite (proj2 (proj2 (proj2 (proj2 (record_fields _ _ _ _ _))))).
    unfold extract_image_url in Himg. rewrite Hfind, Hsrc in Himg.
    simpl in Himg. now injection Himg as <-.
  - intros pre s post elem E Hpre Hs Ht.
    pose proof (Htitle _ _ _ _ E Hpre Hs Ht) as Hempty.
    split.
    + rewrite (proj1 (record_fields _ _ _ _ _)). now rewrite Hempty.
    + intros before after acc. rewrite !collect_valid_spec.
      rewrite !flat_map_app. cbn [flat_map]. unfold kept at 2.
      rewrite Hd, (proj1 (record_fields _ _ _ _ _)), Hempty.
      reflexivity.
Qed.

(** * One page *)

Lemma first_items_skips `{Library} (soup : Tag) (pre rest : list str) :
  Forall (fun s => bs_select soup s = []) pre ->
  first_items (pre ++ rest) soup = first_items rest soup.
Proof.
  induction 1 as [|s pre Hs _ IH]; [reflexivity|].
  simpl. now rewrite Hs.
Qed.

Lemma first_items_hit `{Library} (soup : Tag) (s : str) (rest : list str) :
  bs_select soup s <> [] ->
  first_items (s :: rest) soup = bs_select soup s.
Proof.
  simpl. now destruct (bs_select soup s).
Qed.

Lemma first_items_none `{Library} (soup : Tag) (selectors : list str) :
  Forall (fun s => bs_select soup s = []) selectors ->
  first_items selectors soup = [].
Proof.
  intros Hall. rewrite <- (app_nil_r selectors).
  now rewrite first_items_skips.
Qed.

(** The loop reads [select] only at the selectors it reaches. *)
Lemma first_items_with_select (L : Library) (soup : @Tag L)
  (f : @Tag L -> str -> list (@Tag L)) (pre : list str) (s : str)
  (rest : list str) :
  (forall s', s' ∈ pre ++ [s] -> f soup s' = @bs_select L soup s') ->
  Forall (fun s' => @bs_select L soup s' = []) pre ->
  @bs_select L soup s <> [] ->
  @first_items (with_select L f) (pre ++ s :: rest) soup = @bs_select L soup s.
Proof.
  intros Hf Hpre Hs.
  induction Hpre as [|a pre Ha _ IH].
  - cbn [app first_items with_select bs_select].
    rewrite Hf by set_solver. now destruct (@bs_select L soup s).
  - cbn [app first_items with_select bs_select].
    rewrite Hf by (constructor; reflexivity). rewrite Ha.
    apply IH. intros s' Hs'. apply Hf.
    change ((a :: pre) ++ [s]) with (a :: (pre ++ [s])).
    constructor. exact Hs'.
Qed.

Lemma car_text_spec `{Library} (text : option str) :
  car_text text = true <->
  exists t a b, text = Some t /\ t <> [] /\ lower t = a ++ lit "car" ++ b.
Proof.
  unfold car_text. destruct text as [t|].
  - destruct t as [|c t]; cbn [truthy].
    + split; [discriminate | intros (t & a & b & [= <-] & Hne & _); congruence].
    + rewrite contains_spec. split.
      * intros (a & b & E). exists (c :: t), a, b. now repeat split.
      * intros (t' & a & b & [= <-] & _ & E). eauto.
  - split; [discriminate | intros (t & a & b & [=] & _)].
Qed.

(** C6. The locator has five selectors and tries them in order. The
    nodes of the first selector that matches at least one node are
    returned, and nothing [select] would answer for a later selector can
    change that. When no selector matches, the nodes are those of the scan
    for [div] and [li] tags whose string contains [car] in any letter
    case; when the scan finds nothing the result is the empty list and
    the page loop returns no record, without raising. *)
Theorem locate_listings_spec (L : Library) (soup : @Tag L) :
  length card_selectors = 5%nat /\
  (forall pre s post,
     card_selectors = pre ++ s :: post ->
     Forall (fun s' => @bs_select L soup s' = []) pre ->
     @bs_select L soup s <> [] ->
     @locate_listings L soup = @bs_select L soup s /\
     forall f : @Tag L -> str -> list (@Tag L),
       (forall s', s' ∈ pre ++ [s] -> f soup s' = @bs_select L soup s') ->
       @locate_listings (with_select L f) soup = @bs_select L soup s) /\
  (Forall (fun s => @bs_select L soup s = []) card_selectors ->
   @locate_listings L soup =
     @bs_find_all_string L soup [lit "div"; lit "li"] (@car_text L) /\
   (@bs_find_all_string L soup [lit "div"; lit "li"] (@car_text L) = [] ->
    @locate_listings L soup = [] /\
    @collect_valid L (@locate_listings L soup) [] = Ret [])) /\
  (forall text,
     @car_text L text = true <->
     exists t a b,
       text = Some t /\ t <> [] /\ @lower L t = a ++ lit "car" ++ b).
Proof.
  split; [reflexivity|]. split; [|split].
  - intros pre s post E Hpre Hs. split.
    + unfold locate_listings.
      rewrite E, first_items_skips, first_items_hit by assumption.
      now destruct (bs_select soup s).
    + intros f Hf. unfold locate_listings.
      rewrite E, (first_items_with_select L soup f pre s post Hf Hpre Hs).
      now destruct (@bs_select L soup s).
  - intros Hall.
    assert (E : locate_listings soup =
                bs_find_all_string soup [lit "div"; lit "li"] car_text).
    { unfold locate_listings. now rewrite first_items_none. }
    split; [exact E|]. intros Hnone. rewrite E, Hnone. now split.
  - apply car_text_spec.
Qed.

(** [scrape_page] always returns, and sends exactly one request. *)
Lemma scrape_page_unfold `{Library} (self : OLXScraper) (k : Z) (w : World) :
  scrape_page self k w =
  (Ret match session_get (trace w) (get_page_url self k) 15 with
       | Ret response =>
           match raise_for_status response with
           | Ret _ =>
               match BeautifulSoup (content response) with
               | Ret soup => flat_map kept (locate_listings soup)
               | Raise _ => []
               end
           | Raise _ => []
           end
       | Raise _ => []
       end,
   log (EvGet (get_page_url self k) 15) w).
Proof.
  unfold scrape_page, try_except, scrape_page_try, io_bind, http_get, lift.
  destruct (session_get (trace w) (get_page_url self k) 15) as [response|[?|?]];
    [|reflexivity|reflexivity].
  destruct (raise_for_status response) as [[]|[?|?]];
    [|reflexivity|reflexivity].
  destruct (BeautifulSoup (content response)) as [soup|[?|?]];
    [|reflexivity|reflexivity].
  now rewrite collect_valid_spec.
Qed.

Lemma scrape_page_returns `{Library} (self : OLXScraper) (k : Z) (w : World) :
  scrape_page self k w =
  (Ret (page_items self k w), log (EvGet (get_page_url self k) 15) w).
Proof.
  unfold page_items. now rewrite scrape_page_unfold.
Qed.

Lemma page_items_processed `{Library} (self : OLXScraper) (k : Z) (w : World)
  (soup : Tag) :
  processed self k w soup ->
  page_items self k w = flat_map kept (locate_listings soup).
Proof.
  intros (response & Hget & Hst & Hsoup).
  unfold page_items. rewrite scrape_page_unfold. cbn [fst].
  now rewrite Hget, Hst, Hsoup.
Qed.

Lemma page_items_cases `{Library} (self : OLXScraper) (k : Z) (w : World) :
  page_items self k w = [] \/
  exists soup,
    processed self k w soup /\
    page_items self k w = flat_map kept (locate_listings soup).
Proof.
  unfold page_items, processed. rewrite scrape_page_unfold. cbn [fst].
  destruct (session_get (trace w) (get_page_url self k) 15) as [response|];
    [|now left].
  destruct (raise_for_status response) as [[]|] eqn:Hst; [|now left].
  destruct (BeautifulSoup (content response)) as [soup|] eqn:Hsoup;
    [|now left].
  right. exists soup. split; [|reflexivity]. now exists response.
Qed.

Lemma kept_has_title `{Library} (item_card : Tag) (d : item) :
  d ∈ kept item_card <-> extract_item_data item_card = Some d /\ has_title d.
Proof.
  unfold kept, has_title.
  destruct (extract_item_data item_card) as [d'|].
  - destruct (dict_get d' "title") as [t|] eqn:Ht.
    + destruct (decide (t = NA)) as [->|Hne].
      * split; [set_solver|]. intros [[= <-] (t & Ht' & Hne)]. congruence.
      * rewrite list_elem_of_singleton. split.
        -- intros ->. eauto.
        -- now intros [[= <-] _].
    + split; [set_solver|]. intros [[= <-] (t & Ht' & _)]. congruence.
  - split; [set_solver | now intros [[=] _]].
Qed.

(** * The run over the pages *)

Lemma py_range_pages (n : Z) : py_range 1 (n + 1) = pages_upto n.
Proof.
  unfold py_range, pages_upto.
  replace (n + 1 - 1) with n by lia.
  rewrite <- seq_shift, List.map_map.
  apply List.map_ext. intros i. lia.
Qed.

Lemma pages_upto_elem (n k : Z) : k ∈ pages_upto n <-> 1 <= k <= n.
Proof.
  unfold pages_upto. rewrite list_elem_of_In, in_map_iff. split.
  - intros (i & <- & Hi%in_seq). lia.
  - intros Hk. exists (Z.to_nat k). split; [lia|]. apply in_seq. lia.
Qed.

(** In the list [1 .. n], what precedes [k] is the list [1 .. k - 1]. *)
Lemma pages_upto_split (n k : Z) (done todo : list Z) :
  pages_upto n = done ++ k :: todo -> done = pages_upto (k - 1).
Proof.
  unfold pages_upto. intros E.
  assert (Hlen : (length done < Z.to_nat n)%nat).
  { apply (f_equal length) in E.
    rewrite length_map, length_seq, length_app in E. simpl in E. lia. }
  assert (Hsplit : Z.to_nat n = (length done + (Z.to_nat n - length done))%nat)
    by lia.
  rewrite Hsplit, seq_app, List.map_app in E.
  apply app_inj_1 in E as [E1 E2];
    [|now rewrite length_map, length_seq].
  destruct (Z.to_nat n - length done)%nat as [|m] eqn:Hm; [lia|].
  simpl in E2. injection E2 as Hk _.
  replace (Z.to_nat (k - 1)) with (length done) by lia.
  now symmetry.
Qed.

Lemma world_at_eq `{Library} (self : OLXScraper) (n k : Z) (w0 w : World)
  (done todo : list Z) :
  pages_upto n = done ++ k :: todo ->
  trace w = trace w0 ++ flat_map (page_events self n) done ->
  fs w = fs w0 ->
  w = world_at self n w0 k.
Proof.
  intros Hp%pages_upto_split Ht Hf. unfold world_at. rewrite <- Hp.
  destruct w as [t f]. simpl in *. now subst.
Qed.

Lemma pages_upto_first (n : Z) :
  1 <= n -> exists rest, pages_upto n = 1 :: rest.
Proof.
  intros Hn. unfold pages_upto.
  replace (Z.to_nat n) with (S (Z.to_nat (n - 1))) by lia.
  cbn [seq List.map]. eauto.
Qed.

Lemma sleep_returns `{Library} (secs : Q) (w : World) :
  time_sleep secs = Ret tt -> sleep secs w = (Ret tt, log (EvSleep secs) w).
Proof. intros Hs. unfold sleep. now rewrite Hs. Qed.

Lemma sleep_raises `{Library} (secs : Q) (e : exception) (w : World) :
  time_sleep secs = Raise e -> sleep secs w = (Raise e, w).
Proof. intros Hs. unfold sleep. now rewrite Hs. Qed.

(** One turn of the loop. *)
Lemma scrape_loop_step `{Library} (self : OLXScraper) (n k : Z)
  (todo : list Z) (acc : list item) (w : World) :
  scrape_loop self n (k :: todo) acc w =
  match (if k <? n then sleep (delay self) else io_ret tt)
          (log (EvGet (get_page_url self k) 15) w) with
  | (Ret _, w2) => scrape_loop self n todo (acc ++ page_items self k w) w2
  | (Raise e, w2) => (Raise e, w2)
  end.
Proof.
  cbn [scrape_loop]. unfold io_bind. now rewrite scrape_page_returns.
Qed.

(** The loop, from any point of the run on. Either it returns: it has
    appended the items of the pages still to do, and the trace has grown
    by their effects. Or it stops at a pause on which [time.sleep]
    raises, which takes a run of two pages or more. *)
Lemma scrape_loop_cases `{Library} (self : OLXScraper) (n : Z) (w0 : World) :
  forall (todo done : list Z) (acc : list item) (w : World),
    pages_upto n = done ++ todo ->
    trace w = trace w0 ++ flat_map (page_events self n) done ->
    fs w = fs w0 ->
    (exists w',
       scrape_loop self n todo acc w =
         (Ret (acc ++ flat_map (fun k => page_items self k (world_at self n w0 k))
                        todo), w') /\
       trace w' = trace w0 ++ flat_map (page_events self n) (done ++ todo) /\
       fs w' = fs w0) \/
    (exists e w',
       scrape_loop self n todo acc w = (Raise e, w') /\
       time_sleep (delay self) = Raise e /\ 2 <= n).
Proof.
  induction todo as [|k todo IH]; intros done acc w Hp Ht Hf.
  - left. exists w. cbn [scrape_loop flat_map]. unfold io_ret.
    now rewrite !app_nil_r.
  - pose proof (world_at_eq self n k w0 w done todo Hp Ht Hf) as Hw.
    assert (Hk : 1 <= k <= n).
    { apply pages_upto_elem. rewrite Hp. apply list_elem_of_In, in_elt. }
    rewrite scrape_loop_step. cbn [flat_map]. rewrite <- Hw.
    set (w1 := log (EvGet (get_page_url self k) 15) w).
    assert (Hstep :
      (exists w2,
         (if k <? n then sleep (delay self) else io_ret tt) w1 = (Ret tt, w2) /\
         w2 = if k <? n then log (EvSleep (delay self)) w1 else w1) \/
      (exists e,
         (if k <? n then sleep (delay self) else io_ret tt) w1 = (Raise e, w1) /\
         time_sleep (delay self) = Raise e /\ 2 <= n)).
    { destruct (Z.ltb_spec k n) as [Hlt | Hge].
      - destruct (time_sleep (delay self)) as [[]|e] eqn:Hs.
        + left. eexists. split; [now apply sleep_returns | reflexivity].
        + right. exists e. split; [now apply sleep_raises|].
          split; [reflexivity | lia].
      - left. eexists. split; reflexivity. }
    destruct Hstep as [(w2 & -> & Hw2) | (e & -> & Hs & Hn)];
      [|right; eauto].
    destruct (IH (done ++ [k]) (acc ++ page_items self k w) w2)
      as [(w' & Hrun & Ht' & Hf') | (e & w' & Hrun & Hs & Hn)].
    + now rewrite <- app_assoc.
    + rewrite flat_map_app, app_assoc, <- Ht. cbn [flat_map].
      rewrite app_nil_r, Hw2. unfold w1, page_events, log.
      destruct (k <? n); cbn [trace]; now rewrite <- ?app_assoc.
    + rewrite Hw2. unfold w1, log. destruct (k <? n); exact Hf.
    + left. exists w'. rewrite Hrun, <- !app_assoc in *. cbn [app] in Ht'.
      now repeat split.
    + right. exists e, w'. now rewrite Hrun.
Qed.

(** Whenever a run returns, it returns the items of its pages. *)
Lemma scrape_multiple_pages_result `{Library} (self : OLXScraper) (n : Z)
  (w : World) (r : list item) (self' : OLXScraper) (w' : World) :
  scrape_multiple_pages self n w = (Ret (r, self'), w') ->
  r = flat_map (fun k => page_items self k (world_at self n w k))
        (pages_upto n) /\
  self' = set_results self r.
Proof.
  unfold scrape_multiple_pages, io_bind. rewrite py_range_pages.
  destruct (scrape_loop_cases self n w (pages_upto n) [] [] w)
    as [(w1 & Hrun & _) | (e & w1 & Hrun & _)];
    try reflexivity; try (cbn [flat_map]; now rewrite app_nil_r);
    rewrite Hrun; [|discriminate].
  unfold io_ret. cbn [app]. now intros [= <- <- _].
Qed.

(** Whenever a run raises, the exception is the one of [time.sleep]. *)
Lemma scrape_multiple_pages_raises `{Library} (self : OLXScraper) (n : Z)
  (w : World) (e : exception) (w' : World) :
  scrape_multiple_pages self n w = (Raise e, w') ->
  time_sleep (delay self) = Raise e /\ 2 <= n.
Proof.
  unfold scrape_multiple_pages, io_bind. rewrite py_range_pages.
  destruct (scrape_loop_cases self n w (pages_upto n) [] [] w)
    as [(w1 & Hrun & _) | (e' & w1 & Hrun & Hs & Hn)];
    try reflexivity; try (cbn [flat_map]; now rewrite app_nil_r);
    rewrite Hrun; [discriminate|].
  now intros [= <- _].
Qed.

(** The whole run, when no pause is taken or [time.sleep] returns on
    the delay. *)
Lemma scrape_multiple_pages_run `{Library} (self : OLXScraper) (n : Z)
  (w : World) :
  n <= 1 \/ time_sleep (delay self) = Ret tt ->
  let r := flat_map (fun k => page_items self k (world_at self n w k))
             (pages_upto n) in
  exists w',
    scrape_multiple_pages self n w = (Ret (r, set_results self r), w') /\
    trace w' = trace w ++ run_events self n /\
    fs w' = fs w.
Proof.
  intros Hd r.
  destruct (scrape_loop_cases self n w (pages_upto n) [] [] w)
    as [(w' & Hrun & Ht & Hf) | (e & w' & _ & Hs & Hn)].
  - reflexivity.
  - cbn [flat_map]. now rewrite app_nil_r.
  - reflexivity.
  - exists w'. unfold scrape_multiple_pages, io_bind.
    rewrite py_range_pages, Hrun. now repeat split.
  - destruct Hd as [Hd | Hd]; [lia | congruence].
Qed.

(** A pause on which [time.sleep] raises stops a run of two pages or
    more right after the request for page 1. *)
Lemma scrape_multiple_pages_aborts `{Library} (self : OLXScraper)
  (max_pages : Z) (w : World) (e : exception) :
  2 <= max_pages ->
  time_sleep (delay self) = Raise e ->
  scrape_multiple_pages self max_pages w =
    (Raise e, log (EvGet (get_page_url self 1) 15) w).
Proof.
  intros Hn Hs. unfold scrape_multiple_pages, io_bind.
  rewrite py_range_pages.
  destruct (pages_upto_first max_pages) as [rest ->]; [lia|].
  rewrite scrape_loop_step.
  assert (H1 : (1 <? max_pages) = true) by (apply Z.ltb_lt; lia).
  rewrite H1. now rewrite (sleep_raises _ _ _ Hs).
Qed.

(** A run that returns takes no pause or pauses with success; this does
    not depend on the state it starts in. *)
Lemma scrape_multiple_pages_returned `{Library} (self : OLXScraper) (n : Z)
  (w : World) (x : list item * OLXScraper) (w' : World) :
  scrape_multiple_pages self n w = (Ret x, w') ->
  n <= 1 \/ time_sleep (delay self) = Ret tt.
Proof.
  intros Hrun. destruct (Z.le_gt_cases n 1) as [Hn | Hn]; [now left|].
  destruct (time_sleep (delay self)) as [[]|e] eqn:Hs; [now right|].
  rewrite (scrape_multiple_pages_aborts self n w e) in Hrun by (lia || exact Hs).
  discriminate.
Qed.

(** C3, as the code has it. A run of [max_pages >= 1] pages on whose
    delay [time.sleep] returns (or of one page, which takes no pause)
    requests the pages [1 .. max_pages] in this order, whatever any of
    them yields; it pauses after every page but the last; and it returns
    the items of the pages, page after page. *)
Theorem scrape_multiple_pages_spec `{Library} (self : OLXScraper)
  (max_pages : Z) (w : World) :
  1 <= max_pages ->
  max_pages = 1 \/ time_sleep (delay self) = Ret tt ->
  let r := flat_map (fun k => page_items self k (world_at self max_pages w k))
             (pages_upto max_pages) in
  exists w',
    scrape_multiple_pages self max_pages w = (Ret (r, set_results self r), w') /\
    trace w' =
      trace w ++
      flat_map (fun k => EvGet (get_page_url self k) 15 ::
                         if k <? max_pages then [EvSleep (delay self)] else [])
        (List.map Z.of_nat (seq 1 (Z.to_nat max_pages))) /\
    fs w' = fs w /\
    (forall k, 1 <= k <= max_pages ->
       scrape_page self k (world_at self max_pages w k) =
         (Ret (page_items self k (world_at self max_pages w k)),
          log (EvGet (get_page_url self k) 15) (world_at self max_pages w k))).
Proof.
  intros _ Hd r.
  assert (Hd' : max_pages <= 1 \/ time_sleep (delay self) = Ret tt)
    by (destruct Hd; [left; lia | now right]).
  destruct (scrape_multiple_pages_run self max_pages w Hd')
    as (w' & Hrun & Ht & Hf).
  exists w'. repeat split; try assumption.
  intros k _. apply scrape_page_returns.
Qed.

(** C1. Whenever a run returns its list, the list holds valid records
    only: every record in it has a title, and the title is not the
    sentinel. Conversely, for every page of the run that is processed,
    every card the locator finds on it whose record has a title other
    than the sentinel is in the list. And the run does return its list
    when the delay is one [time.sleep] accepts. *)
Theorem output_titles_resolved `{Library} (self : OLXScraper) (max_pages : Z)
  (w : World) (r : list item) (self' : OLXScraper) (w' : World) :
  scrape_multiple_pages self max_pages w = (Ret (r, self'), w') ->
  Forall has_title r /\
  (forall k soup item_card d,
     1 <= k <= max_pages ->
     processed self k (world_at self max_pages w k) soup ->
     item_card ∈ locate_listings soup ->
     extract_item_data item_card = Some d ->
     has_title d ->
     d ∈ r) /\
  ((0 <= delay self)%Q ->
   forall w0, exists r0 w1,
     scrape_multiple_pages self max_pages w0 =
       (Ret (r0, set_results self r0), w1)).
Proof.
  intros Hrun.
  pose proof (scrape_multiple_pages_returned _ _ _ _ _ Hrun) as Hd.
  apply scrape_multiple_pages_result in Hrun as [-> _]. split; [|split].
  - apply Forall_forall. intros d (k & Hk & Hd')%list_elem_of_In%in_flat_map.
    destruct (page_items_cases self k (world_at self max_pages w k))
      as [E | (soup & _ & E)]; rewrite E in Hd'; [contradiction|].
    apply in_flat_map in Hd' as (card & _ & Hkept).
    now apply list_elem_of_In, kept_has_title in Hkept.
  - intros k soup card d Hk Hproc Hcard Hex Htitle.
    apply list_elem_of_In, in_flat_map. exists k. split.
    + now apply list_elem_of_In, pages_upto_elem.
    + rewrite (page_items_processed _ _ _ _ Hproc).
      apply in_flat_map. exists card. split.
      * now apply list_elem_of_In.
      * apply list_elem_of_In, kept_has_title. now split.
  - intros _ w0.
    destruct (scrape_multiple_pages_run self max_pages w0 Hd)
      as (w1 & Hrun & _).
    eexists; exists w1. exact Hrun.
Qed.

(** C7, as the code has it. A page whose request raises, whose status is
    from 400 to 599 (the statuses on which [raise_for_status] raises), or
    whose body the parser rejects yields the empty list: [scrape_page]
    returns it and does not raise; a reply with any other status is
    parsed. No page makes the run raise: a run raises only the exception
    of [time.sleep], and when [time.sleep] returns on the delay, or no
    pause is taken, the run returns the items of all pages. A card on
    which the extractor raises yields no record, and the cards around it
    are collected as if it were not there. *)
Theorem failures_contained `{Library} (self : OLXScraper) :
  (forall k w,
     scrape_page self k w =
       (Ret (page_items self k w), log (EvGet (get_page_url self k) 15) w) /\
     (forall e,
        session_get (trace w) (get_page_url self k) 15 = Raise e ->
        page_items self k w = []) /\
     (forall response,
        session_get (trace w) (get_page_url self k) 15 = Ret response ->
        (400 <= status_code response < 600 \/
         exists e, BeautifulSoup (content response) = Raise e) ->
        page_items self k w = []) /\
     (forall response soup,
        session_get (trace w) (get_page_url self k) 15 = Ret response ->
        ~ 400 <= status_code response < 600 ->
        BeautifulSoup (content response) = Ret soup ->
        page_items self k w = flat_map kept (locate_listings soup))) /\
  (forall max_pages w0,
     (max_pages <= 1 \/ time_sleep (delay self) = Ret tt ->
      exists w',
        let r := flat_map
                   (fun k => page_items self k (world_at self max_pages w0 k))
                   (pages_upto max_pages) in
        scrape_multiple_pages self max_pages w0 =
          (Ret (r, set_results self r), w')) /\
     (forall e w',
        scrape_multiple_pages self max_pages w0 = (Raise e, w') ->
        time_sleep (delay self) = Raise e /\ 2 <= max_pages)) /\
  (forall item_card e,
     extract_item_data_try item_card = Raise e ->
     extract_item_data item_card = None /\
     forall before after acc,
       collect_valid (before ++ item_card :: after) acc =
       collect_valid (before ++ after) acc).
Proof.
  split; [|split].
  - intros k w. split; [apply scrape_page_returns|].
    unfold page_items. rewrite scrape_page_unfold. cbn [fst].
    split; [|split].
    + now intros e ->.
    + intros response -> [Hst | [e He]].
      * unfold raise_for_status.
        assert (E : (400 <=? status_code response) &&
                    (status_code response <? 600) = true).
        { apply andb_true_iff. split; [apply Z.leb_le | apply Z.ltb_lt]; lia. }
        now rewrite E.
      * rewrite He. now destruct (raise_for_status response).
    + intros response soup -> Hst ->. unfold raise_for_status.
      assert (E : (400 <=? status_code response) &&
                  (status_code response <? 600) = false).
      { apply not_true_iff_false. intros [H1%Z.leb_le H2%Z.ltb_lt]%andb_true_iff.
        apply Hst. lia. }
      now rewrite E.
  - intros max_pages w0. split.
    + intros Hd.
      destruct (scrape_multiple_pages_run self max_pages w0 Hd)
        as (w' & Hrun & _).
      now exists w'.
    + intros e w'. apply scrape_multiple_pages_raises.
  - intros card e He.
    assert (Hnone : extract_item_data card = None).
    { apply extract_item_data_None. eauto. }
    split; [exact Hnone|]. intros before after acc.
    rewrite !collect_valid_spec, !flat_map_app. cbn [flat_map].
    unfold kept at 2. now rewrite Hnone.
Qed.

(** * The exporters *)

(** C8. With no record stored, [save_to_csv] and [save_to_json] return
    [None] without raising and leave the file system, and the rest of the
    state, as it was. *)
Theorem save_nothing `{Library} (self : OLXScraper) (filename : str)
  (w : World) :
  results self = [] ->
  save_to_csv self filename w = (Ret None, w) /\
  save_to_json self filename w = (Ret None, w).
Proof.
  intros E. unfold save_to_csv, save_to_json. now rewrite E.
Qed.

(** * The program at work on the sample pages *)

Example str_of_int_12 : str_of_int 12 = lit "12".
Proof. reflexivity. Qed.

Example page_url_3 :
  get_page_url Fixture.scraper 3 =
  lit "https://www.olx.in/items/q-car-cover?page=3".
Proof. reflexivity. Qed.

Example extract_card1 :
  @extract_item_data Fixture.lib Fixture.card1 = Some Fixture.record1.
Proof. vm_compute. reflexivity. Qed.

Example extract_card2 :
  @extract_item_data Fixture.lib Fixture.card2 = Some Fixture.record2.
Proof. vm_compute. reflexivity. Qed.

Example extract_card3 :
  @extract_item_data Fixture.lib Fixture.card3 = Some Fixture.record3.
Proof. vm_compute. reflexivity. Qed.

(** The join of the link of [card4] raises, so the card has no record. *)
Example extract_card4 :
  @extract_item_data Fixture.lib Fixture.card4 = None.
Proof. vm_compute. reflexivity. Qed.

(** Three pages: four cards of which two are kept, a 503, one card. *)
Example run_three_pages :
  fst (@scrape_multiple_pages Fixture.lib Fixture.scraper 3 Fixture.start) =
  Ret ([Fixture.record1; Fixture.record3; Fixture.record3],
       set_results Fixture.scraper
         [Fixture.record1; Fixture.record3; Fixture.record3]).
Proof. vm_compute. reflexivity. Qed.

Example run_three_pages_trace :
  @trace Fixture.lib
    (snd (@scrape_multiple_pages Fixture.lib Fixture.scraper 3 Fixture.start)) =
  [EvGet (lit "https://www.olx.in/items/q-car-cover") 15; EvSleep (3 # 2);
   EvGet (lit "https://www.olx.in/items/q-car-cover?page=2") 15;
   EvSleep (3 # 2);
   EvGet (lit "https://www.olx.in/items/q-car-cover?page=3") 15].
Proof. vm_compute. reflexivity. Qed.

(** A delay too large for [time.sleep] stops the run at its first pause
    with [OverflowError]. *)
Example run_overflowing_delay :
  fst (@scrape_multiple_pages Fixture.lib
         {| base_url := base_url Fixture.scraper; delay := 10000000000 # 1;
            results := [] |} 2 Fixture.start) =
  Raise (OtherException "OverflowError").
Proof. vm_compute. reflexivity. Qed.

(** A negative delay makes the first pause raise. *)
Example run_negative_delay :
  fst (@scrape_multiple_pages Fixture.lib
         {| base_url := base_url Fixture.scraper; delay := -1 # 1;
            results := [] |} 2 Fixture.start) =
  Raise (OtherException "ValueError").
Proof. vm_compute. reflexivity. Qed.

(** The CSV export of one record writes the header and one line. *)
Example save_one_record :
  let '(r, w) :=
    @save_to_csv Fixture.lib (set_results Fixture.scraper [Fixture.record3])
      (lit "out.csv") Fixture.start in
  r = Ret (Some (lit "output/out.csv")) /\
  @fs Fixture.lib w !! lit "output/out.csv" =
    Some (Some (lit "title,price,location,url,image_url" ++ [13; 10]%N ++
                lit "Seat cover,N/A,N/A,httpcovers/item-3,N/A" ++ [13; 10]%N)).
Proof. vm_compute. split; reflexivity. Qed.

(** * Checks on concrete inputs *)

Lemma passed_over_check `{Library} (item_card : Tag) (s : str) :
  match candidate_text item_card s with
  | Some t => negb (looks_like_price t)
  | None => true
  end = true ->
  passed_over item_card s.
Proof.
  unfold passed_over. destruct (candidate_text item_card s) as [t|]; [|done].
  intros Hn%negb_true_iff. now apply looks_like_price_false.
Qed.

Lemma get_page_url_spec_witness :
  1 < 2 /\
  get_page_url Fixture.scraper 1 = base_url Fixture.scraper /\
  get_page_url Fixture.scraper 2 =
    base_url Fixture.scraper ++ lit "?page=" ++ str_of_int 2.
Proof.
  split; [lia | apply (get_page_url_spec Fixture.scraper 2); lia].
Defined.

Lemma get_page_url_injective_witness :
  1 <= 2 /\ 1 <= 3 /\
  (get_page_url Fixture.scraper 2 = get_page_url Fixture.scraper 3 -> 2 = 3) /\
  (1 < 3 ->
   exists suffix,
     suffix = lit "?page=" ++ str_of_int 3 /\ suffix <> [] /\
     get_page_url Fixture.scraper 3 = get_page_url Fixture.scraper 1 ++ suffix).
Proof.
  split; [lia|]. split; [lia|].
  apply (get_page_url_injective Fixture.scraper 2 3); lia.
Defined.

(** On [card2] the first price candidate reads [Negotiable] and is passed
    over, the second matches nothing, and the third, [1200 only], is the
    price. *)
Lemma extract_price_spec_witness :
  @extract_item_data Fixture.lib Fixture.card2 = Some Fixture.record2 /\
  price_selectors =
    [lit "span._2b6f3"; attr_selector "data-aut-id" "itemPrice"] ++
    lit ".price" :: [lit "span" ++ attr_contains_selector "class" "price"] /\
  Forall (@passed_over Fixture.lib Fixture.card2)
    [lit "span._2b6f3"; attr_selector "data-aut-id" "itemPrice"] /\
  @candidate_text Fixture.lib Fixture.card2 (lit ".price") =
    Some (lit "1200 only") /\
  @price_mark Fixture.lib (lit "1200 only") /\
  dict_get Fixture.record2 "price" = Some (lit "1200 only").
Proof.
  assert (Hd : @extract_item_data Fixture.lib Fixture.card2 =
               Some Fixture.record2) by (vm_compute; reflexivity).
  assert (Hpre : Forall (@passed_over Fixture.lib Fixture.card2)
                   [lit "span._2b6f3"; attr_selector "data-aut-id" "itemPrice"]).
  { apply Forall_cons_2; [|apply Forall_cons_2; [|apply Forall_nil_2]];
      apply passed_over_check; vm_compute; reflexivity. }
  assert (Ht : @candidate_text Fixture.lib Fixture.card2 (lit ".price") =
               Some (lit "1200 only")) by (vm_compute; reflexivity).
  assert (Hm : @price_mark Fixture.lib (lit "1200 only")).
  { apply looks_like_price_true. vm_compute. reflexivity. }
  refine (conj Hd (conj eq_refl (conj Hpre (conj Ht (conj Hm _))))).
  exact (proj1 (extract_price_spec (H := Fixture.lib) Fixture.card2
                  Fixture.record2 Hd)
           [lit "span._2b6f3"; attr_selector "data-aut-id" "itemPrice"]
           (lit ".price") [lit "span" ++ attr_contains_selector "class" "price"]
           (lit "1200 only") eq_refl Hpre Ht Hm).
Defined.

(** The link of [card3] is a relative reference, and joined to the origin
    it is a URL of the site. *)
Example join_card3 :
  absolute_reference (lit "httpcovers/item-3") = false /\
  @urljoin Fixture.lib origin (lit "httpcovers/item-3") =
    Ret (lit "https://www.olx.in/httpcovers/item-3").
Proof. split; vm_compute; reflexivity. Qed.

(** The claim of C5 fails on [card3]. Its href, [httpcovers/item-3], has
    no scheme, so it is a relative reference; joined to the origin it is
    [https://www.olx.in/httpcovers/item-3]; the record has the href
    itself, because it begins with [http]. *)
Lemma relative_href_left_unresolved :
  ~ @url_as_claimed Fixture.lib Fixture.card3.
Proof.
  intros Hclaim.
  specialize (Hclaim (Fixture.el "a" [("href", "httpcovers/item-3")]%string [])
                (lit "httpcovers/item-3") Fixture.record3).
  assert (Hrel : absolute_reference (lit "httpcovers/item-3") = false)
    by (vm_compute; reflexivity).
  rewrite Hrel in Hclaim.
  destruct Hclaim as (url & Hjoin & Hurl); try (vm_compute; reflexivity).
  assert (Hjoin' : @urljoin Fixture.lib origin (lit "httpcovers/item-3") =
                   Ret (lit "https://www.olx.in/httpcovers/item-3"))
    by (vm_compute; reflexivity).
  rewrite Hjoin' in Hjoin. injection Hjoin as <-.
  vm_compute in Hurl. discriminate.
Qed.

(** On [card1] the href [/item/car-cover-iid-1] does not begin with
    [http] and is joined to the origin. *)
Lemma extract_url_spec_witness :
  let link := Fixture.el "a" [("href", "/item/car-cover-iid-1")]%string
                [ Fixture.el "img" [("src", "https://img.olx.in/1.jpg")]%string [];
                  Fixture.el "span" [("class", "_2b6f3")]%string
                    [Fixture.NavigableString (rupee :: lit " 500")];
                  Fixture.el "h6" [] [Fixture.txt " Car body cover "];
                  Fixture.el "span" [("class", "_2e28f")]%string
                    [Fixture.txt "Pune"] ] in
  let href := lit "/item/car-cover-iid-1" in
  @bs_find Fixture.lib Fixture.card1 (lit "a") [lit "href"] = Some link /\
  @bs_get Fixture.lib link (lit "href") = Some href /\
  @extract_item_data Fixture.lib Fixture.card1 = Some Fixture.record1 /\
  startswith href (lit "http") = false /\
  exists url,
    @urljoin Fixture.lib origin href = Ret url /\
    dict_get Fixture.record1 "url" = Some (py_or (Some url) NA).
Proof.
  intros link href.
  assert (Hfind : @bs_find Fixture.lib Fixture.card1 (lit "a") [lit "href"] =
                  Some link) by (vm_compute; reflexivity).
  assert (Hget : @bs_get Fixture.lib link (lit "href") = Some href)
    by (vm_compute; reflexivity).
  assert (Hd : @extract_item_data Fixture.lib Fixture.card1 =
               Some Fixture.record1) by (vm_compute; reflexivity).
  refine (conj Hfind (conj Hget (conj Hd (conj eq_refl _)))).
  exact (proj2 (extract_url_spec (H := Fixture.lib) Fixture.card1 link href
                  Fixture.record1 Hfind Hget Hd) eq_refl).
Defined.

(** On [card2] the [h6] element matches the first title selector and its
    text strips to nothing. *)
Lemma extract_item_data_shape_witness :
  @extract_item_data Fixture.lib Fixture.card2 = Some Fixture.record2 /\
  dict_keys Fixture.record2 =
    ["title"; "price"; "location"; "url"; "image_url"]%string /\
  Forall (fun v => v <> []) (dict_values Fixture.record2) /\
  dict_get Fixture.record2 "title" = Some NA /\
  @collect_valid Fixture.lib [Fixture.card1; Fixture.card2] [] =
  @collect_valid Fixture.lib [Fixture.card1] [].
Proof.
  assert (Hd : @extract_item_data Fixture.lib Fixture.card2 =
               Some Fixture.record2) by (vm_compute; reflexivity).
  pose proof (extract_item_data_shape (H := Fixture.lib) Fixture.card2
                Fixture.record2 Hd)
    as (Hkeys & Hvals & _ & _ & _ & _ & Htitle).
  destruct (Htitle [] (lit "h6")
              [attr_selector "data-aut-id" "itemTitle"; lit ".title";
               lit "h6._2caa7"]
              (Fixture.el "h6" [] [Fixture.txt "  "]) eq_refl
              (Forall_nil_2 _)) as [Hna Hdrop];
    [vm_compute; reflexivity | vm_compute; reflexivity |].
  refine (conj Hd (conj Hkeys (conj Hvals (conj Hna _)))).
  exact (Hdrop [Fixture.card1] [] []).
Defined.

(** The claim of C3 fails on [hasty], whose delay is half a second below
    zero, for two pages: [time.sleep] raises [ValueError] at the pause
    after page 1, nothing catches it, the run returns no list and page 2
    is never requested. *)
Lemma pause_stops_run :
  ~ @run_as_claimed Fixture.lib hasty 2 Fixture.start /\
  EvGet (get_page_url hasty 2) 15 ∉
    @trace Fixture.lib
      (snd (@scrape_multiple_pages Fixture.lib hasty 2 Fixture.start)).
Proof.
  assert (Hrun : @scrape_multiple_pages Fixture.lib hasty 2 Fixture.start =
                 (Raise (OtherException "ValueError"),
                  @log Fixture.lib (EvGet (get_page_url hasty 1) 15)
                    Fixture.start)).
  { apply (scrape_multiple_pages_aborts (H := Fixture.lib)); [lia|].
    vm_compute. reflexivity. }
  split.
  - intros Hclaim. destruct Hclaim as (r & self' & w' & Hret & _); [lia|].
    rewrite Hrun in Hret. discriminate.
  - rewrite Hrun. cbn [snd log trace Fixture.start app].
    intros Hin%list_elem_of_In. destruct Hin as [Heq | []].
    vm_compute in Heq. discriminate.
Qed.

(** The claim of C7 fails on a page answered with the status 300: it is
    not a success status, [raise_for_status] accepts it, the body is
    parsed and its card gives a record. *)
Lemma redirection_status_parsed :
  ~ @page_as_claimed undecided Fixture.scraper 1 undecided_start /\
  @page_items undecided Fixture.scraper 1 undecided_start = [Fixture.record3].
Proof.
  assert (Hitems : @page_items undecided Fixture.scraper 1 undecided_start =
                   [Fixture.record3]) by (vm_compute; reflexivity).
  split; [|exact Hitems].
  intros Hclaim.
  specialize (Hclaim {| status_code := 300;
                        content := Some (Fixture.page_of [Fixture.card3]) |}).
  rewrite Hitems in Hclaim.
  discriminate Hclaim; vm_compute; reflexivity.
Qed.

Lemma scrape_multiple_pages_spec_witness :
  1 <= 3 /\
  (3 = 1 \/ @time_sleep Fixture.lib (delay Fixture.scraper) = Ret tt) /\
  exists w',
    @scrape_multiple_pages Fixture.lib Fixture.scraper 3 Fixture.start =
      (Ret ([Fixture.record1; Fixture.record3; Fixture.record3],
            set_results Fixture.scraper
              [Fixture.record1; Fixture.record3; Fixture.record3]), w') /\
    @trace Fixture.lib w' =
      [EvGet (lit "https://www.olx.in/items/q-car-cover") 15; EvSleep (3 # 2);
       EvGet (lit "https://www.olx.in/items/q-car-cover?page=2") 15;
       EvSleep (3 # 2);
       EvGet (lit "https://www.olx.in/items/q-car-cover?page=3") 15].
Proof.
  assert (Hn : 1 <= 3) by lia.
  assert (Hd : 3 = 1 \/
               @time_sleep Fixture.lib (delay Fixture.scraper) = Ret tt)
    by (right; vm_compute; reflexivity).
  refine (conj Hn (conj Hd _)).
  destruct (scrape_multiple_pages_spec (H := Fixture.lib) Fixture.scraper 3
              Fixture.start Hn Hd) as (w' & Hrun & Ht & _).
  exists w'. split.
  - rewrite Hrun. vm_compute. reflexivity.
  - rewrite Ht. vm_compute. reflexivity.
Defined.

Lemma output_titles_resolved_witness :
  let r := [Fixture.record1; Fixture.record3; Fixture.record3] in
  let w' := snd (@scrape_multiple_pages Fixture.lib Fixture.scraper 3
                   Fixture.start) in
  @scrape_multiple_pages Fixture.lib Fixture.scraper 3 Fixture.start =
    (Ret (r, set_results Fixture.scraper r), w') /\
  Forall has_title r /\
  Fixture.record3 ∈ r.
Proof.
  intros r w'.
  assert (Hrun : @scrape_multiple_pages Fixture.lib Fixture.scraper 3
                   Fixture.start = (Ret (r, set_results Fixture.scraper r), w'))
    by (vm_compute; reflexivity).
  destruct (output_titles_resolved (H := Fixture.lib) Fixture.scraper 3
              Fixture.start r _ w' Hrun) as (Hall & Hconv & _).
  refine (conj Hrun (conj Hall _)).
  apply (Hconv 3 (Fixture.page_of [Fixture.card3]) Fixture.card3).
  - lia.
  - exists {| status_code := 200;
              content := Some (Fixture.page_of [Fixture.card3]) |}.
    repeat split; vm_compute; reflexivity.
  - vm_compute. constructor.
  - vm_compute. reflexivity.
  - exists (lit "Seat cover"). split; [reflexivity | vm_compute; discriminate].
Defined.

(** Page 2 of the sample site answers 503, and the link of [card4] makes
    [urljoin] raise. *)
Lemma failures_contained_witness :
  @time_sleep Fixture.lib (delay Fixture.scraper) = Ret tt /\
  @page_items Fixture.lib Fixture.scraper 2
    (@world_at Fixture.lib Fixture.scraper 3 Fixture.start 2) = [] /\
  (exists r w',
     @scrape_multiple_pages Fixture.lib Fixture.scraper 3 Fixture.start =
       (Ret (r, set_results Fixture.scraper r), w')) /\
  @extract_item_data Fixture.lib Fixture.card4 = None /\
  @collect_valid Fixture.lib [Fixture.card4; Fixture.card3] [] =
  @collect_valid Fixture.lib [Fixture.card3] [].
Proof.
  assert (Hd : @time_sleep Fixture.lib (delay Fixture.scraper) = Ret tt)
    by (vm_compute; reflexivity).
  destruct (failures_contained (H := Fixture.lib) Fixture.scraper)
    as (Hpage & Hrun & Hcard).
  split; [exact Hd|]. split; [|split].
  - apply (proj1 (proj2 (proj2 (Hpage 2 (@world_at Fixture.lib Fixture.scraper
                                           3 Fixture.start 2))))
             {| status_code := 503; content := None |}).
    + vm_compute. reflexivity.
    + left. simpl. lia.
  - destruct (proj1 (Hrun 3 Fixture.start) (or_intror Hd)) as (w' & Hw').
    eexists; exists w'. exact Hw'.
  - destruct (Hcard Fixture.card4 (OtherException "ValueError"))
      as [Hnone Hdrop]; [vm_compute; reflexivity|].
    split; [exact Hnone | exact (Hdrop [] [Fixture.card3] [])].
Defined.

Lemma save_nothing_witness :
  results Fixture.scraper = [] /\
  @save_to_csv Fixture.lib Fixture.scraper (lit "olx_car_covers.csv")
    Fixture.start = (Ret None, Fixture.start) /\
  @save_to_json Fixture.lib Fixture.scraper (lit "olx_car_covers.json")
    Fixture.start = (Ret None, Fixture.start).
Proof.
  split; [reflexivity|].
  destruct (save_nothing (H := Fixture.lib) Fixture.scraper
              (lit "olx_car_covers.csv") Fixture.start eq_refl) as [Hcsv _].
  destruct (save_nothing (H := Fixture.lib) Fixture.scraper
              (lit "olx_car_covers.json") Fixture.start eq_refl) as [_ Hjson].
  exact (conj Hcsv Hjson).
Defined.

(** * More on the field extractor *)

Lemma first_text_none `{Library} (item_card : Tag) (selectors : list str) :
  Forall (fun s => bs_select_one item_card s = None) selectors ->
  first_text selectors item_card = None.
Proof.
  intros Hall. rewrite <- (app_nil_r selectors).
  now rewrite first_text_skips.
Qed.

Lemma first_text_first_match `{Library} (item_card : Tag) (pre : list str)
  (s : str) (post : list str) (elem : Tag) :
  Forall (fun s' => bs_select_one item_card s' = None) pre ->
  bs_select_one item_card s = Some elem ->
  first_text (pre ++ s :: post) item_card = Some (bs_get_text elem).
Proof.
  intros Hpre Hs. rewrite first_text_skips by exact Hpre.
  cbn [first_text]. now rewrite Hs.
Qed.

(** X1. The title of a returned record is the text of the first title
    selector that matches an element, or the sentinel when that text is
    empty or no selector matches; what later selectors would find plays
    no part. The location is decided the same way. *)
Theorem extract_text_fields `{Library} (item_card : Tag) (d : item) :
  extract_item_data item_card = Some d ->
  (forall pre s post elem,
     title_selectors = pre ++ s :: post ->
     Forall (fun s' => bs_select_one item_card s' = None) pre ->
     bs_select_one item_card s = Some elem ->
     dict_get d "title" = Some (py_or (Some (bs_get_text elem)) NA)) /\
  (Forall (fun s => bs_select_one item_card s = None) title_selectors ->
   dict_get d "title" = Some NA) /\
  (forall pre s post elem,
     location_selectors = pre ++ s :: post ->
     Forall (fun s' => bs_select_one item_card s' = None) pre ->
     bs_select_one item_card s = Some elem ->
     dict_get d "location" = Some (py_or (Some (bs_get_text elem)) NA)) /\
  (Forall (fun s => bs_select_one item_card s = None) location_selectors ->
   dict_get d "location" = Some NA).
Proof.
  intros (url & img & _ & _ & ->)%extract_item_data_Some.
  rewrite (proj1 (record_fields _ _ _ _ _)).
  rewrite (proj1 (proj2 (proj2 (record_fields _ _ _ _ _)))).
  repeat split.
  - intros pre s post elem E Hpre Hs.
    now rewrite E, (first_text_first_match _ _ _ _ _ Hpre Hs).
  - intros Hall. now rewrite first_text_none.
  - intros pre s post elem E Hpre Hs.
    now rewrite E, (first_text_first_match _ _ _ _ _ Hpre Hs).
  - intros Hall. now rewrite first_text_none.
Qed.

Lemma first_price_marked `{Library} (item_card : Tag) (selectors : list str)
  (t : str) :
  first_price selectors item_card = Some t -> price_mark t.
Proof.
  induction selectors as [|s rest IH]; [discriminate|].
  cbn [first_price].
  destruct (bs_select_one item_card s) as [e|]; [|exact IH].
  destruct (looks_like_price (bs_get_text e)) eqn:E; [|exact IH].
  intros [= <-]. now apply looks_like_price_true.
Qed.

(** X2. The price of a returned record is the sentinel or a text that has
    the rupee sign or a digit: a text without either is never stored. *)
Theorem extract_price_marked `{Library} (item_card : Tag) (d : item) :
  extract_item_data item_card = Some d ->
  exists p, dict_get d "price" = Some p /\ (p = NA \/ price_mark p).
Proof.
  intros (url & img & _ & _ & ->)%extract_item_data_Some.
  rewrite (proj1 (proj2 (record_fields _ _ _ _ _))).
  eexists. split; [reflexivity|].
  destruct (first_price price_selectors item_card) as [t|] eqn:E;
    [|now left].
  apply first_price_marked in E. right.
  rewrite py_or_truthy; [exact E | now apply price_mark_nonempty].
Qed.

Lemma extract_image_url_returns `{Library} (item_card : Tag) :
  exists image_url,
    extract_image_url item_card = Ret image_url /\
    image_url =
      match bs_find item_card (lit "img") [] with
      | Some img_elem =>
          match bs_get img_elem (lit "src") with
          | Some src => if truthy src then Some src else None
          | None => None
          end
      | None => None
      end.
Proof.
  unfold extract_image_url, bs_getitem.
  destruct (bs_find item_card (lit "img") []) as [img|]; [|eauto].
  destruct (bs_get img (lit "src")) as [src|] eqn:E; [|eauto].
  destruct (truthy src); [|eauto]. cbn [exc_bind]. eauto.
Qed.

(** X3. In a returned record, a card without a link has the sentinel as
    url, and the image url is the [src] of the first image as it stands,
    never joined to the origin; it is the sentinel when there is no
    image or the image has no [src]. *)
Theorem extract_link_fields `{Library} (item_card : Tag) (d : item) :
  extract_item_data item_card = Some d ->
  (bs_find item_card (lit "a") [lit "href"] = None ->
   dict_get d "url" = Some NA) /\
  (bs_find item_card (lit "img") [] = None ->
   dict_get d "image_url" = Some NA) /\
  (forall img,
     bs_find item_card (lit "img") [] = Some img ->
     bs_get img (lit "src") = None ->
     dict_get d "image_url" = Some NA) /\
  (forall img src,
     bs_find item_card (lit "img") [] = Some img ->
     bs_get img (lit "src") = Some src ->
     src <> [] ->
     dict_get d "image_url" = Some src).
Proof.
  intros (url & img & Hurl & Himg & ->)%extract_item_data_Some.
  rewrite (proj1 (proj2 (proj2 (proj2 (record_fields _ _ _ _ _))))).
  rewrite (proj2 (proj2 (proj2 (proj2 (record_fields _ _ _ _ _))))).
  destruct (extract_image_url_returns item_card) as (img' & Himg' & Eimg).
  rewrite Himg in Himg'. injection Himg' as <-.
  repeat split.
  - intros Hnone. unfold extract_url in Hurl. rewrite Hnone in Hurl.
    now injection Hurl as <-.
  - intros Hnone. now rewrite Eimg, Hnone.
  - intros i Hi Hsrc. now rewrite Eimg, Hi, Hsrc.
  - intros i src Hi Hsrc Hne. rewrite Eimg, Hi, Hsrc.
    destruct src; [congruence | reflexivity].
Qed.

(** X4. The extractor returns no record for a card in one case only: the
    card has a link whose href does not begin with [http] and [urljoin]
    raises on it (or the link has no href to read). Every other card,
    and every card without a link, gives a record. *)
Theorem extract_item_data_fails_iff `{Library} (item_card : Tag) :
  extract_item_data item_card = None <->
  exists link,
    bs_find item_card (lit "a") [lit "href"] = Some link /\
    (bs_get link (lit "href") = None \/
     exists href e,
       bs_get link (lit "href") = Some href /\
       startswith href (lit "http") = false /\
       urljoin origin href = Raise e).
Proof.
  unfold extract_item_data, extract_item_data_try.
  destruct (extract_image_url_returns item_card) as (img & -> & _).
  unfold extract_url, bs_getitem.
  destruct (bs_find item_card (lit "a") [lit "href"]) as [link|].
  - destruct (bs_get link (lit "href")) as [href|] eqn:Hget; cbn [exc_bind].
    + destruct (startswith href (lit "http")) eqn:Hs; cbn [negb exc_bind].
      * split; [discriminate|].
        intros (l & [= <-] & [Hn | (h & e & Hh & Hf & _)]); congruence.
      * destruct (urljoin origin href) as [r|e] eqn:Hj; cbn [exc_bind].
        -- split; [discriminate|].
           intros (l & [= <-] & [Hn | (h & e & Hh & _ & Hr)]); congruence.
        -- split; [|reflexivity]. intros _. exists link. split; [reflexivity|].
           right. exists href, e. now rewrite Hget.
    + split; [|reflexivity]. intros _. exists link. split; [reflexivity|].
      left. exact Hget.
  - cbn [exc_bind]. split; [discriminate | intros (l & [=] & _)].
Qed.

Lemma py_or_not_sentinel (x : option str) :
  py_or x NA <> NA <-> exists t, x = Some t /\ t <> [] /\ t <> NA.
Proof.
  destruct x as [[|c t]|]; cbn [py_or truthy].
  - split; [congruence | intros (t & [= <-] & Hne & _); congruence].
  - split.
    + intros Hne. exists (c :: t). now repeat split.
    + now intros (t' & [= <-] & _ & Hne).
  - split; [congruence | intros (t & [=] & _)].
Qed.

(** X5. A card contributes a record to its page exactly when the
    extractor returns one and the first matching title selector finds a
    text that is neither empty nor the three characters [N/A]: a listing
    whose title reads [N/A] is dropped like one without a title. *)
Theorem kept_iff_title `{Library} (item_card : Tag) :
  (kept item_card <> [] <->
   extract_item_data item_card <> None /\
   exists t,
     first_text title_selectors item_card = Some t /\ t <> [] /\ t <> NA) /\
  (first_text title_selectors item_card = Some NA -> kept item_card = []) /\
  (forall d, d ∈ kept item_card -> kept item_card = [d]).
Proof.
  unfold kept.
  destruct (extract_item_data item_card) as [d|] eqn:E.
  - apply extract_item_data_Some in E as (url & img & _ & _ & ->).
    rewrite (proj1 (record_fields _ _ _ _ _)).
    destruct (decide (py_or (first_text title_selectors item_card) NA = NA))
      as [Heq | Hne].
    + split; [split|split].
      * congruence.
      * intros [_ Ht]. apply py_or_not_sentinel in Ht. congruence.
      * reflexivity.
      * intros d Hd. now apply elem_of_nil in Hd.
    + split; [split|split].
      * intros _. split; [discriminate | now apply py_or_not_sentinel].
      * discriminate.
      * intros Ht. rewrite Ht in Hne. now contradiction Hne.
      * intros d Hd%list_elem_of_singleton. now subst.
  - split; [split|split].
    + congruence.
    + now intros [Hn _].
    + reflexivity.
    + intros d Hd. now apply elem_of_nil in Hd.
Qed.

Lemma dict_to_list_fieldnames (d : item) :
  dict_keys d = fieldnames -> dict_to_list d = Ret (dict_values d).
Proof.
  unfold dict_keys, fieldnames.
  destruct d as [|[k1 v1] [|[k2 v2] [|[k3 v3] [|[k4 v4] [|[k5 v5] [|? ?]]]]]];
    try discriminate.
  cbn [List.map fst]. intros [= -> -> -> -> ->]. reflexivity.
Qed.

(** X13. The CSV row of a record the extractor returned is made of its
    five values in the column order title, price, location, url,
    image_url; building it never raises. *)
Theorem extracted_row `{Library} (item_card : Tag) (d : item) :
  extract_item_data item_card = Some d ->
  dict_to_list d = Ret (dict_values d) /\
  exists title price location url image_url,
    dict_values d = [title; price; location; url; image_url] /\
    dict_get d "title" = Some title /\ dict_get d "price" = Some price /\
    dict_get d "location" = Some location /\ dict_get d "url" = Some url /\
    dict_get d "image_url" = Some image_url.
Proof.
  intros (url & img & _ & _ & ->)%extract_item_data_Some.
  split; [now apply dict_to_list_fieldnames|].
  do 5 eexists. split; [reflexivity|]. apply record_fields.
Qed.

(** * More on one page *)

Lemma kept_length `{Library} (item_card : Tag) : (length (kept item_card) <= 1)%nat.
Proof.
  unfold kept. destruct (extract_item_data item_card) as [d|]; [|simpl; lia].
  destruct (dict_get d "title") as [t|]; [|simpl; lia].
  destruct (decide (t = NA)); simpl; lia.
Qed.

Lemma flat_map_kept_length `{Library} (cards : list Tag) :
  (length (flat_map kept cards) <= length cards)%nat.
Proof.
  induction cards as [|c cards IH]; [reflexivity|].
  cbn [flat_map]. rewrite length_app. pose proof (kept_length c).
  simpl. lia.
Qed.

(** X6. The page loop never raises. It leaves the records collected so
    far in place and appends at most one record per card, each with a
    title other than the sentinel; over two lists of cards in a row it is
    the loop over the first followed by the loop over the second, so the
    records come in the order of the cards and none is merged or
    removed as a duplicate. *)
Theorem collect_valid_order `{Library} (cards1 cards2 : list Tag)
  (acc : list item) :
  collect_valid (cards1 ++ cards2) acc =
    exc_bind (collect_valid cards1 acc) (collect_valid cards2) /\
  exists added,
    collect_valid cards1 acc = Ret (acc ++ added) /\
    (length added <= length cards1)%nat /\
    Forall has_title added /\
    (forall card, collect_valid [card; card] [] =
                  Ret (kept card ++ kept card)).
Proof.
  split.
  - rewrite !collect_valid_spec. cbn [exc_bind].
    now rewrite collect_valid_spec, flat_map_app, app_assoc.
  - exists (flat_map kept cards1). split; [apply collect_valid_spec|].
    split; [apply flat_map_kept_length|]. split.
    + apply Forall_forall.
      intros d (card & _ & Hd)%list_elem_of_In%in_flat_map.
      now apply list_elem_of_In, kept_has_title in Hd.
    + intros card. rewrite collect_valid_spec. cbn [flat_map app].
      now rewrite app_nil_r.
Qed.

Lemma first_items_nil `{Library} (soup : Tag) (selectors : list str) :
  first_items selectors soup = [] <->
  Forall (fun s => bs_select soup s = []) selectors.
Proof.
  split; [|apply first_items_none].
  induction selectors as [|s rest IH]; [constructor|].
  cbn [first_items]. destruct (bs_select soup s) eqn:E.
  - intros Hrest. apply Forall_cons_2; [exact E | now apply IH].
  - discriminate.
Qed.

(** X7. The locator returns no node exactly when none of the five
    selectors matches and the text scan finds nothing; as soon as a
    selector matches, its result is not empty and the scan plays no
    part. *)
Theorem locate_listings_empty_iff `{Library} (soup : Tag) :
  (locate_listings soup = [] <->
   Forall (fun s => bs_select soup s = []) card_selectors /\
   bs_find_all_string soup [lit "div"; lit "li"] car_text = []) /\
  (first_items card_selectors soup <> [] ->
   locate_listings soup = first_items card_selectors soup).
Proof.
  unfold locate_listings. split.
  - rewrite <- first_items_nil.
    destruct (first_items card_selectors soup) as [|c l] eqn:E.
    + split; [now intros -> | now intros [_ ->]].
    + split; [discriminate | now intros [[=] _]].
  - now destruct (first_items card_selectors soup).
Qed.

(** * More on the run *)

Lemma sleep_effect `{Library} (secs : Q) (w : World) :
  fs (snd (sleep secs w)) = fs w /\
  exists evs, trace (snd (sleep secs w)) = trace w ++ evs.
Proof.
  unfold sleep. destruct (time_sleep secs); cbn [snd log fs trace].
  - split; [reflexivity | eauto].
  - split; [reflexivity | exists []; now rewrite app_nil_r].
Qed.

Lemma scrape_loop_effect `{Library} (self : OLXScraper) (n : Z)
  (todo : list Z) :
  forall (acc : list item) (w : World),
    fs (snd (scrape_loop self n todo acc w)) = fs w /\
    exists evs, trace (snd (scrape_loop self n todo acc w)) = trace w ++ evs.
Proof.
  induction todo as [|k todo IH]; intros acc w.
  - cbn. split; [reflexivity | exists []; now rewrite app_nil_r].
  - rewrite scrape_loop_step.
    set (w1 := log (EvGet (get_page_url self k) 15) w).
    assert (Hstep : fs (snd ((if k <? n then sleep (delay self)
                              else io_ret tt) w1)) = fs w /\
                    exists evs,
                      trace (snd ((if k <? n then sleep (delay self)
                                   else io_ret tt) w1)) = trace w ++ evs).
    { destruct (k <? n).
      - destruct (sleep_effect (delay self) w1) as [Hf [evs Ht]].
        split; [exact Hf|]. exists ([EvGet (get_page_url self k) 15] ++ evs).
        rewrite Ht. unfold w1, log. cbn [trace]. now rewrite <- app_assoc.
      - unfold io_ret. cbn [snd]. split; [reflexivity|]. now eexists. }
    destruct ((if k <? n then sleep (delay self) else io_ret tt) w1)
      as [[[]|e] w2]; cbn [snd] in Hstep; [|exact Hstep].
    destruct Hstep as [Hf [evs Ht]].
    destruct (IH (acc ++ page_items self k w) w2) as [Hf' [evs' Ht']].
    split; [congruence|]. exists (evs ++ evs').
    now rewrite Ht', Ht, <- app_assoc.
Qed.

Lemma on_fs_trace `{Library} (op : FS -> exc FS) (w : World) :
  trace (snd (on_fs op w)) = trace w.
Proof. unfold on_fs. now destruct (op (fs w)). Qed.

Lemma io_bind_trace `{Library} {A B} (c : M A) (k : A -> M B) :
  (forall w, trace (snd (c w)) = trace w) ->
  (forall a w, trace (snd (k a w)) = trace w) ->
  forall w, trace (snd (io_bind c k w)) = trace w.
Proof.
  intros Hc Hk w. unfold io_bind. specialize (Hc w).
  destruct (c w) as [[a|e] w1]; cbn [snd] in *; [|exact Hc].
  now rewrite Hk.
Qed.

Lemma write_rows_trace `{Library} (filepath : str) (rows : list item) :
  forall w, trace (snd (write_rows filepath rows w)) = trace w.
Proof.
  induction rows as [|row rows IH]; [reflexivity|].
  cbn [write_rows]. apply io_bind_trace; [reflexivity|].
  intros fields. apply io_bind_trace; [apply on_fs_trace|].
  intros _. exact IH.
Qed.

(** X11. Scraping and exporting act on separate parts of the state. A
    run, whether it returns or raises, leaves the file system as it was
    and only adds to the trace of requests and pauses. An export, whether
    it returns or raises, sends no request and takes no pause. *)
Theorem effects_separate `{Library} (self : OLXScraper) (max_pages : Z)
  (filename : str) (w : World) :
  fs (snd (scrape_multiple_pages self max_pages w)) = fs w /\
  (exists evs,
     trace (snd (scrape_multiple_pages self max_pages w)) = trace w ++ evs) /\
  trace (snd (save_to_csv self filename w)) = trace w /\
  trace (snd (save_to_json self filename w)) = trace w.
Proof.
  assert (Hrun : fs (snd (scrape_multiple_pages self max_pages w)) = fs w /\
                 exists evs,
                   trace (snd (scrape_multiple_pages self max_pages w)) =
                   trace w ++ evs).
  { unfold scrape_multiple_pages, io_bind.
    pose proof (scrape_loop_effect self max_pages
                  (py_range 1 (max_pages + 1)) [] w) as He.
    destruct (scrape_loop self max_pages (py_range 1 (max_pages + 1)) [] w)
      as [[r|e] w']; exact He. }
  destruct Hrun as [Hf Ht]. split; [exact Hf|]. split; [exact Ht|]. split.
  - unfold save_to_csv. destruct (results self) as [|d l] eqn:E;
      [reflexivity|].
    apply io_bind_trace; [apply on_fs_trace|]. intros _.
    apply io_bind_trace; [apply on_fs_trace|]. intros _.
    apply io_bind_trace; [apply on_fs_trace|]. intros _.
    apply io_bind_trace; [apply write_rows_trace|]. reflexivity.
  - unfold save_to_json. destruct (results self) as [|d l] eqn:E;
      [reflexivity|].
    apply io_bind_trace; [apply on_fs_trace|]. intros _.
    apply io_bind_trace; [apply on_fs_trace|]. intros _.
    apply io_bind_trace; [apply on_fs_trace|]. reflexivity.
Qed.

Lemma pages_upto_nonpos (n : Z) : n <= 0 -> pages_upto n = [].
Proof.
  intros Hn. unfold pages_upto. now replace (Z.to_nat n) with 0%nat by lia.
Qed.

Lemma pages_upto_last (n : Z) :
  1 <= n -> pages_upto n = pages_upto (n - 1) ++ [n].
Proof.
  intros Hn. unfold pages_upto.
  replace (Z.to_nat n) with (S (Z.to_nat (n - 1))) by lia.
  rewrite seq_S, List.map_app. cbn [List.map]. do 2 f_equal. lia.
Qed.

(** X8. A run of at most one page takes no pause, so it returns whatever
    the delay is, also a negative one. With [max_pages <= 0] it sends no
    request and returns the empty list; with [max_pages = 1] it sends
    the single request for page 1. *)
Theorem short_run `{Library} (self : OLXScraper) (max_pages : Z) (w : World) :
  max_pages <= 1 ->
  let r := flat_map (fun k => page_items self k w) (pages_upto max_pages) in
  scrape_multiple_pages self max_pages w =
    (Ret (r, set_results self r),
     {| trace := trace w ++
                 List.map (fun k => EvGet (get_page_url self k) 15)
                   (pages_upto max_pages);
        fs := fs w |}).
Proof.
  intros Hn r. unfold scrape_multiple_pages, io_bind.
  rewrite py_range_pages. unfold r. clear r.
  destruct (Z.le_gt_cases max_pages 0) as [H0 | H1].
  - rewrite pages_upto_nonpos by exact H0. cbn.
    rewrite app_nil_r. now destruct w.
  - assert (max_pages = 1) as -> by lia.
    change (pages_upto 1) with [1].
    rewrite scrape_loop_step. cbn. now rewrite !app_nil_r.
Qed.

(** X9. A delay on which [time.sleep] raises (a negative one, or one
    too large for it) stops a run of two or more pages at its first
    pause: the run has sent the request for page 1 and nothing else,
    raises the exception of [time.sleep], returns no list and leaves
    [self.results] as it was, since the assignment of line 159 is never
    reached. *)
Theorem negative_delay_aborts `{Library} (self : OLXScraper) (max_pages : Z)
  (w : World) (e : exception) :
  2 <= max_pages ->
  time_sleep (delay self) = Raise e ->
  scrape_multiple_pages self max_pages w =
    (Raise e, log (EvGet (get_page_url self 1) 15) w) /\
  trace (snd (scrape_multiple_pages self max_pages w)) =
    trace w ++ [EvGet (get_page_url self 1) 15].
Proof.
  intros Hn Hd.
  rewrite (scrape_multiple_pages_aborts self max_pages w e Hn Hd).
  now split.
Qed.

Lemma flat_map_ext_in {A B} (f g : A -> list B) (l : list A) :
  (forall a, In a l -> f a = g a) -> flat_map f l = flat_map g l.
Proof.
  induction l as [|a l IH]; intros Hfg; [reflexivity|].
  cbn [flat_map]. rewrite Hfg by now left.
  rewrite IH; [reflexivity|]. intros b Hb. apply Hfg. now right.
Qed.

Lemma run_events_closed (self : OLXScraper) (n : Z) :
  1 <= n ->
  run_events self n =
  flat_map (fun k => [EvGet (get_page_url self k) 15; EvSleep (delay self)])
    (pages_upto (n - 1)) ++ [EvGet (get_page_url self n) 15].
Proof.
  intros Hn. unfold run_events.
  rewrite (pages_upto_last n Hn), flat_map_app. f_equal.
  - apply flat_map_ext_in. intros k Hk%list_elem_of_In%pages_upto_elem.
    unfold page_events.
    assert (E : (k <? n) = true) by (apply Z.ltb_lt; lia).
    now rewrite E.
  - cbn [flat_map]. unfold page_events. rewrite Z.ltb_irrefl.
    now rewrite app_nil_r.
Qed.

Lemma count_get_sleep (f : Z -> event) (g : event) (l : list Z) :
  (forall k, is_get (f k) = true) -> is_sleep g = true ->
  length (List.filter is_get (flat_map (fun k => [f k; g]) l)) = length l /\
  length (List.filter is_sleep (flat_map (fun k => [f k; g]) l)) = length l.
Proof.
  intros Hf Hg. induction l as [|k l [IH1 IH2]]; [now split|].
  cbn [flat_map app List.filter].
  assert (Hg' : is_get g = false) by (destruct g; [discriminate | reflexivity]).
  assert (Hf' : is_sleep (f k) = false).
  { specialize (Hf k). destruct (f k); [reflexivity | discriminate]. }
  rewrite Hf, Hg, Hg', Hf'. cbn [length]. split; congruence.
Qed.

(** X10. A run of [max_pages >= 1] pages on whose delay [time.sleep]
    returns (or of one page, which takes no pause) sends exactly
    [max_pages] requests and takes exactly [max_pages - 1] pauses: a
    request and a pause for each page before the last, then the request
    for the last page. *)
Theorem run_effects_count `{Library} (self : OLXScraper) (max_pages : Z)
  (w : World) :
  1 <= max_pages ->
  max_pages = 1 \/ time_sleep (delay self) = Ret tt ->
  exists r w' evs,
    scrape_multiple_pages self max_pages w = (Ret r, w') /\
    trace w' = trace w ++ evs /\
    evs =
      flat_map (fun k => [EvGet (get_page_url self k) 15; EvSleep (delay self)])
        (pages_upto (max_pages - 1)) ++
      [EvGet (get_page_url self max_pages) 15] /\
    Z.of_nat (length (List.filter is_get evs)) = max_pages /\
    Z.of_nat (length (List.filter is_sleep evs)) = max_pages - 1.
Proof.
  intros Hn Hd.
  assert (Hd' : max_pages <= 1 \/ time_sleep (delay self) = Ret tt)
    by (destruct Hd; [left; lia | now right]).
  destruct (scrape_multiple_pages_run self max_pages w Hd')
    as (w' & Hrun & Ht & _).
  eexists; exists w'; eexists. split; [exact Hrun|].
  split; [rewrite Ht, (run_events_closed self max_pages Hn); reflexivity|].
  split; [reflexivity|].
  rewrite !List.filter_app, !length_app.
  destruct (count_get_sleep (fun k => EvGet (get_page_url self k) 15)
              (EvSleep (delay self)) (pages_upto (max_pages - 1)))
    as [Hg Hs]; try reflexivity.
  rewrite Hg, Hs. unfold pages_upto. rewrite length_map, length_seq.
  cbn [List.filter is_get is_sleep length]. lia.
Qed.

(** X12. A run that returns hands its list over in two ways: as its
    result and as the [results] of the scraper, whose base URL and delay
    stay as they were. On that scraper the exporters return no path when
    the list is empty, and never return no path when it is not. *)
Theorem run_then_export `{Library} (self : OLXScraper) (max_pages : Z)
  (w : World) (r : list item) (self' : OLXScraper) (w' : World) :
  scrape_multiple_pages self max_pages w = (Ret (r, self'), w') ->
  results self' = r /\ base_url self' = base_url self /\
  delay self' = delay self /\
  (r = [] ->
   forall filename w1,
     save_to_csv self' filename w1 = (Ret None, w1) /\
     save_to_json self' filename w1 = (Ret None, w1)) /\
  (r <> [] ->
   forall filename w1,
     fst (save_to_csv self' filename w1) <> Ret None /\
     fst (save_to_json self' filename w1) <> Ret None).
Proof.
  intros [_ ->]%scrape_multiple_pages_result.
  split; [reflexivity|]. split; [reflexivity|]. split; [reflexivity|]. split.
  - intros -> filename w1. now split.
  - intros Hne filename w1. unfold save_to_csv, save_to_json, set_results.
    cbn [results]. destruct r as [|d l]; [congruence|].
    unfold io_bind, io_ret. split.
    + destruct (on_fs (makedirs (lit "output")) w1) as [[[]|e] w2];
        [|discriminate].
      destruct (on_fs _ w2) as [[[]|e] w3]; [|discriminate].
      destruct (on_fs _ w3) as [[[]|e] w4]; [|discriminate].
      destruct (write_rows _ _ w4) as [[[]|e] w5]; discriminate.
    + destruct (on_fs (makedirs (lit "output")) w1) as [[[]|e] w2];
        [|discriminate].
      destruct (on_fs _ w2) as [[[]|e] w3]; [|discriminate].
      destruct (on_fs _ w3) as [[[]|e] w4]; discriminate.
Qed.

(** * More on the exporters *)

Lemma write_rows_seq `{Library} (filepath : str) (rows : list item) :
  Forall (fun d => dict_keys d = fieldnames) rows ->
  forall w,
    write_rows filepath rows w =
    fs_seq (List.map (fun d => write filepath (csv_row (dict_values d))) rows) w.
Proof.
  induction 1 as [|d rows Hd _ IH]; intros w; [reflexivity|].
  cbn [write_rows List.map fs_seq]. unfold io_bind at 1, lift.
  rewrite (dict_to_list_fieldnames d Hd).
  unfold io_bind. destruct (on_fs _ w) as [[[]|e] w1]; [apply IH | reflexivity].
Qed.


(** X15. A path an exporter returns is [os.path.join('output', filename)]:
    the file name under [output/], unless the file name begins with a
    slash, in which case the path is the file name itself and the file
    is written outside the output directory. *)
Theorem saved_path `{Library} (self : OLXScraper) (filename p : str)
  (w w' : World) :
  save_to_csv self filename w = (Ret (Some p), w') \/
  save_to_json self filename w = (Ret (Some p), w') ->
  results self <> [] /\
  p = path_join (lit "output") filename /\
  (startswith filename (lit "/") = true -> p = filename) /\
  (startswith filename (lit "/") = false -> p = lit "output/" ++ filename).
Proof.
  intros Hsave.
  assert (Hp : results self <> [] /\ p = path_join (lit "output") filename).
  { unfold save_to_csv, save_to_json, io_bind, io_ret in Hsave.
    destruct (results self) as [|d l]; [now destruct Hsave|].
    split; [discriminate|].
    destruct (on_fs (makedirs (lit "output")) w) as [[[]|e] w1];
      [|now destruct Hsave].
    destruct (on_fs (open_w _) w1) as [[[]|e] w2]; [|now destruct Hsave].
    destruct Hsave as [Hcsv | Hjson].
    - destruct (on_fs _ w2) as [[[]|e] w3]; [|discriminate].
      destruct (write_rows _ _ w3) as [[[]|e] w4]; [|discriminate].
      now injection Hcsv as <- _.
    - destruct (on_fs _ w2) as [[[]|e] w3]; [|discriminate].
      now injection Hjson as <- _. }
  destruct Hp as [Hne ->]. split; [exact Hne|]. split; [reflexivity|].
  unfold path_join. split; intros ->; reflexivity.
Qed.

(** * More on the page URL *)

Lemma uint_chars (d : Decimal.uint) :
  Forall (fun c => c <> qmark) (lit (NilEmpty.string_of_uint d)).
Proof.
  induction d; cbn [NilEmpty.string_of_uint]; unfold lit in *;
    cbn [list_ascii_of_string List.map];
    try apply Forall_nil_2;
    (apply Forall_cons_2; [vm_compute; discriminate | exact IHd]).
Qed.

Lemma str_of_int_chars (n : Z) : Forall (fun c => c <> qmark) (str_of_int n).
Proof.
  unfold str_of_int, NilZero.string_of_int, NilZero.string_of_uint.
  destruct (Z.to_int n) as [d|d].
  - destruct d; try apply uint_chars.
    apply Forall_cons_2; [vm_compute; discriminate | apply Forall_nil_2].
  - unfold lit. cbn [list_ascii_of_string List.map].
    apply Forall_cons_2; [vm_compute; discriminate|].
    destruct d; try apply uint_chars.
    apply Forall_cons_2; [vm_compute; discriminate | apply Forall_nil_2].
Qed.

Lemma count_occ_none (l : str) (c : char) :
  Forall (fun x => x <> c) l -> count_occ N.eq_dec l c = 0%nat.
Proof.
  induction 1 as [|x l Hx _ IH]; [reflexivity|].
  cbn [count_occ]. destruct (N.eq_dec x c); [contradiction | exact IH].
Qed.

(** X16. The page URL tells the page numbers apart over all integers,
    zero and the negative ones included. For every page number other
    than 1 the URL has exactly one question mark more than the base URL:
    [?page=] is appended also to a base URL that already has a query
    string. *)
Theorem get_page_url_all_pages (self : OLXScraper) (j k : Z) :
  (get_page_url self j = get_page_url self k -> j = k) /\
  (k <> 1 ->
   count_occ N.eq_dec (get_page_url self k) qmark =
   S (count_occ N.eq_dec (base_url self) qmark)).
Proof.
  split.
  - unfold get_page_url.
    destruct (Z.eqb_spec j 1) as [->|Hj1], (Z.eqb_spec k 1) as [->|Hk1];
      intros E; try reflexivity.
    + exfalso. revert E. now apply app_nonempty_neq.
    + exfalso. symmetry in E. revert E. now apply app_nonempty_neq.
    + apply app_inv_head in E. apply app_inv_head in E.
      now apply str_of_int_inj.
  - intros Hk. rewrite (get_page_url_paged self k Hk).
    rewrite !count_occ_app. unfold char.
    replace (count_occ N.eq_dec (str_of_int k) qmark) with 0%nat
      by (symmetry; apply count_occ_none, str_of_int_chars).
    replace (count_occ N.eq_dec (lit "?page=") qmark) with 1%nat
      by (vm_compute; reflexivity).
    lia.
Qed.

(** * The summary *)

Lemma url_line_length (url : str) : (length (url_line url) <= 61)%nat.
Proof.
  unfold url_line. destruct (Nat.ltb_spec 50 (length url)).
  - rewrite !length_app, length_take. cbn [lit list_ascii_of_string List.map length].
    lia.
  - rewrite length_app. cbn [lit list_ascii_of_string List.map length]. lia.
Qed.

Lemma summary_item_fields (i : nat) (d : item) :
  dict_keys d = fieldnames ->
  exists title price location url,
    dict_get d "title" = Some title /\ dict_get d "price" = Some price /\
    dict_get d "location" = Some location /\ dict_get d "url" = Some url /\
    summary_item i d =
      Ret [ [10%N] ++ str_of_int (Z.of_nat i + 1) ++ lit ". " ++ title;
            lit "   Price: " ++ price;
            lit "   Location: " ++ location;
            url_line url ].
Proof.
  unfold dict_keys, fieldnames.
  destruct d as [|[k1 v1] [|[k2 v2] [|[k3 v3] [|[k4 v4] [|[k5 v5] [|? ?]]]]]];
    try discriminate.
  cbn [List.map fst]. intros [= -> -> -> -> ->].
  exists v1, v2, v3, v4. repeat split.
Qed.

Lemma summary_items_spec (l : list item) :
  Forall (fun d => dict_keys d = fieldnames) l ->
  forall i, exists lines,
    summary_items i l = Ret lines /\
    length lines = (4 * length l)%nat /\
    forall j d,
      l !! j = Some d ->
      exists title url,
        dict_get d "title" = Some title /\ dict_get d "url" = Some url /\
        lines !! (4 * j)%nat =
          Some ([10%N] ++ str_of_int (Z.of_nat (i + j) + 1) ++ lit ". " ++ title) /\
        lines !! (4 * j + 3)%nat = Some (url_line url).
Proof.
  induction 1 as [|d l Hd _ IH]; intros i.
  - exists []. split; [reflexivity|]. split; [reflexivity|].
    intros j d Hj. discriminate.
  - destruct (summary_item_fields i d Hd)
      as (title & price & location & url & Ht & _ & _ & Hu & Hitem).
    destruct (IH (S i)) as (rest & Hrest & Hlen & Hat).
    cbn [summary_items]. rewrite Hitem, Hrest. cbn [exc_bind].
    eexists. split; [reflexivity|]. split.
    + cbn [app length]. rewrite Hlen. cbn [length]. lia.
    + intros [|j] d' Hj.
      * injection Hj as <-. exists title, url.
        rewrite Nat.add_0_r. now repeat split.
      * destruct (Hat j d' Hj) as (title' & url' & Ht' & Hu' & Hl0 & Hl3).
        exists title', url'. split; [exact Ht'|]. split; [exact Hu'|].
        replace (4 * S j)%nat with (S (S (S (S (4 * j))))) by lia.
        replace (S (S (S (S (4 * j)))) + 3)%nat
          with (S (S (S (S (4 * j + 3))))) by lia.
        cbn [app lookup list_lookup].
        replace (i + S j)%nat with (S i + j)%nat by lia.
        now split.
Qed.

(** X17. On records with the five fields the summary never raises. With
    no record it prints one line. Otherwise it prints three header lines
    and four lines for each of the first three records, numbered from 1,
    and nothing for the records after the third. The URL line shows a
    URL of at most 50 characters in full and a longer one cut to its
    first 50 characters followed by three dots, so it never exceeds 61
    characters. *)
Theorem print_summary_lines (self : OLXScraper) :
  Forall (fun d => dict_keys d = fieldnames) (results self) ->
  exists lines,
    print_summary self = Ret lines /\
    length lines =
      match results self with
      | [] => 1%nat
      | _ :: _ => (3 + 4 * Nat.min 3 (length (results self)))%nat
      end /\
    (forall j d,
       (j < 3)%nat -> results self !! j = Some d ->
       exists title url,
         dict_get d "title" = Some title /\ dict_get d "url" = Some url /\
         lines !! (3 + 4 * j)%nat =
           Some ([10%N] ++ str_of_int (Z.of_nat j + 1) ++ lit ". " ++ title) /\
         lines !! (3 + 4 * j + 3)%nat = Some (url_line url) /\
         (length (url_line url) <= 61)%nat /\
         ((length url <= 50)%nat -> url_line url = lit "   URL: " ++ url) /\
         ((50 < length url)%nat ->
          url_line url = lit "   URL: " ++ take 50 url ++ lit "...")).
Proof.
  intros Hkeys. unfold print_summary.
  destruct (results self) as [|d0 l0] eqn:E.
  - eexists. split; [reflexivity|]. split; [reflexivity|].
    intros j d _ Hj. discriminate.
  - rewrite <- E in *.
    assert (Htake : Forall (fun d => dict_keys d = fieldnames)
                      (take 3 (results self))) by now apply Forall_take.
    destruct (summary_items_spec _ Htake 0%nat) as (items & Hitems & Hlen & Hat).
    rewrite Hitems. cbn [exc_bind].
    eexists. split; [reflexivity|]. split.
    + cbn [app length]. rewrite Hlen, length_take. lia.
    + intros j d Hj Hd.
      destruct (Hat j d) as (title & url & Ht & Hu & Hl0 & Hl3).
      { now rewrite lookup_take_lt. }
      exists title, url. split; [exact Ht|]. split; [exact Hu|].
      cbn [app]. change (3 + 4 * j)%nat with (S (S (S (4 * j)))).
      cbn [Nat.add lookup list_lookup].
      split; [exact Hl0|]. split; [exact Hl3|].
      split; [apply url_line_length|].
      unfold url_line. split; intros Hlen'.
      * destruct (Nat.ltb_spec 50 (length url)); [lia | reflexivity].
      * destruct (Nat.ltb_spec 50 (length url)); [reflexivity | lia].
Qed.

(** * The command *)

Lemma print_summary_returns (self : OLXScraper) :
  Forall (fun d => dict_keys d = fieldnames) (results self) ->
  exists lines, print_summary self = Ret lines.
Proof.
  intros Hkeys. unfold print_summary.
  destruct (results self) as [|d0 l0] eqn:E; [eauto|].
  rewrite <- E in *.
  assert (Htake : Forall (fun d => dict_keys d = fieldnames)
                    (take 3 (results self))) by now apply Forall_take.
  destruct (summary_items_spec _ Htake 0%nat) as (items & Hitems & _).
  rewrite Hitems. cbn [exc_bind]. eauto.
Qed.

Lemma save_trace `{Library} (self : OLXScraper) (filename : str) (w : World) :
  trace (snd (save_to_csv self filename w)) = trace w /\
  trace (snd (save_to_json self filename w)) = trace w.
Proof.
  split.
  - unfold save_to_csv. destruct (results self) as [|d l] eqn:E;
      [reflexivity|].
    apply io_bind_trace; [apply on_fs_trace|]. intros _.
    apply io_bind_trace; [apply on_fs_trace|]. intros _.
    apply io_bind_trace; [apply on_fs_trace|]. intros _.
    apply io_bind_trace; [apply write_rows_trace|]. reflexivity.
  - unfold save_to_json. destruct (results self) as [|d l] eqn:E;
      [reflexivity|].
    apply io_bind_trace; [apply on_fs_trace|]. intros _.
    apply io_bind_trace; [apply on_fs_trace|]. intros _.
    apply io_bind_trace; [apply on_fs_trace|]. reflexivity.
Qed.

Lemma scrape_multiple_pages_fs `{Library} (self : OLXScraper) (max_pages : Z)
  (w : World) :
  fs (snd (scrape_multiple_pages self max_pages w)) = fs w.
Proof.
  unfold scrape_multiple_pages, io_bind.
  pose proof (scrape_loop_effect self max_pages
                (py_range 1 (max_pages + 1)) [] w) as [He _].
  destruct (scrape_loop self max_pages (py_range 1 (max_pages + 1)) [] w)
    as [[r|e] w']; exact He.
Qed.

Lemma page_items_keys `{Library} (self : OLXScraper) (k : Z) (w : World) :
  Forall (fun d => dict_keys d = fieldnames) (page_items self k w).
Proof.
  destruct (page_items_cases self k w) as [-> | (soup & _ & ->)];
    [constructor|].
  apply Forall_forall.
  intros d (card & _ & Hd)%list_elem_of_In%in_flat_map.
  apply list_elem_of_In, kept_has_title in Hd as [Hd _].
  now apply extract_item_data_Some in Hd as (url & img & _ & _ & ->).
Qed.

Lemma run_records_keys `{Library} (self : OLXScraper) (max_pages : Z)
  (w : World) (r : list item) (self' : OLXScraper) (w' : World) :
  scrape_multiple_pages self max_pages w = (Ret (r, self'), w') ->
  Forall (fun d => dict_keys d = fieldnames) r.
Proof.
  intros [-> _]%scrape_multiple_pages_result.
  apply Forall_forall. intros d (k & _ & Hd)%list_elem_of_In%in_flat_map.
  pose proof (page_items_keys self k (world_at self max_pages w k)) as Hk.
  rewrite Forall_forall in Hk. now apply Hk, list_elem_of_In.
Qed.

(** X21. Every record a run returns has exactly the five fields, in the
    column order of the CSV file, so its CSV row is its five values and
    building it never raises: on scraped records [save_to_csv] can only
    fail in a file system call. *)
Theorem run_records_exportable `{Library} (self : OLXScraper) (max_pages : Z)
  (w : World) (r : list item) (self' : OLXScraper) (w' : World) :
  scrape_multiple_pages self max_pages w = (Ret (r, self'), w') ->
  Forall (fun d =>
            dict_keys d = fieldnames /\
            dict_to_list d = Ret (dict_values d) /\
            length (dict_values d) = 5%nat) r /\
  forall filename w1,
    write_rows filename r w1 =
    fs_seq (List.map (fun d => write filename (csv_row (dict_values d))) r) w1.
Proof.
  intros Hkeys%run_records_keys. split.
  - eapply Forall_impl; [exact Hkeys|]. cbn beta.
    intros d Hd. split; [exact Hd|].
    split; [now apply dict_to_list_fieldnames|].
    unfold dict_values, dict_keys in *. rewrite length_map.
    apply (f_equal length) in Hd. now rewrite length_map in Hd.
  - intros filename w1. now apply write_rows_seq.
Qed.

(** X18. When the run of [main] returns no record, [main] returns right
    after it: it calls no exporter, and the file system is as it was,
    with no [output] directory created. *)
Theorem main_no_records `{Library} (args : Args) (w : World)
  (self' : OLXScraper) (w' : World) :
  scrape_multiple_pages (OLXScraper_init default_base_url (arg_delay args))
    (pages args) w = (Ret ([], self'), w') ->
  main args w = (Ret tt, w') /\ fs w' = fs w.
Proof.
  intros Hrun. split.
  - unfold main, io_bind. now rewrite Hrun.
  - pose proof (scrape_multiple_pages_fs
                  (OLXScraper_init default_base_url (arg_delay args))
                  (pages args) w) as Hfs.
    now rewrite Hrun in Hfs.
Qed.

(** X19. [main] exports the CSV file first. When the run returned
    records and the directory [output] cannot be created, [main] raises
    the exception of [os.makedirs]: the JSON export is not attempted, no
    summary is printed, and the file system is as it was. *)
Theorem main_export_failure `{Library} (args : Args) (w : World)
  (r : list item) (self' : OLXScraper) (w' : World) (e : exception) :
  scrape_multiple_pages (OLXScraper_init default_base_url (arg_delay args))
    (pages args) w = (Ret (r, self'), w') ->
  r <> [] ->
  makedirs (lit "output") (fs w') = Raise e ->
  main args w = (Raise e, w') /\ fs w' = fs w.
Proof.
  intros Hrun Hne Hmk. split.
  - pose proof Hrun as [_ ->]%scrape_multiple_pages_result.
    unfold main, io_bind at 1. rewrite Hrun.
    destruct r as [|d l]; [congruence|].
    unfold io_bind at 1. unfold save_to_csv, set_results. cbn [results].
    unfold io_bind at 1. unfold on_fs at 1. now rewrite Hmk.
  - pose proof (scrape_multiple_pages_fs
                  (OLXScraper_init default_base_url (arg_delay args))
                  (pages args) w) as Hfs.
    now rewrite Hrun in Hfs.
Qed.

(** X20. [main] has no handler of its own. With a [--delay] on which
    [time.sleep] raises (a negative one, or one too large for it) and two
    or more [--pages], [main] raises the exception of [time.sleep] after
    one request, the one for the default search URL, and writes no
    file. *)
Theorem main_negative_delay `{Library} (args : Args) (w : World)
  (e : exception) :
  2 <= pages args ->
  time_sleep (arg_delay args) = Raise e ->
  main args w = (Raise e, log (EvGet default_base_url 15) w).
Proof.
  intros Hn Hd. unfold main, io_bind.
  now rewrite (scrape_multiple_pages_aborts
                 (OLXScraper_init default_base_url (arg_delay args))
                 (pages args) w e Hn Hd).
Qed.

(** X22. When the run of [main] returned records and both exports
    return, [main] returns: the JSON export starts in the state the CSV
    export left, both write the records of the run, and the summary
    cannot raise, because every scraped record has the keys it reads. *)
Theorem main_success `{Library} (args : Args) (w : World)
  (r : list item) (self' : OLXScraper) (w' w1 w2 : World)
  (csv_path json_path : option str) :
  scrape_multiple_pages (OLXScraper_init default_base_url (arg_delay args))
    (pages args) w = (Ret (r, self'), w') ->
  r <> [] ->
  save_to_csv self' (output_csv args) w' = (Ret csv_path, w1) ->
  save_to_json self' (output_json args) w1 = (Ret json_path, w2) ->
  main args w = (Ret tt, w2) /\
  results self' = r /\
  csv_path = Some (path_join (lit "output") (output_csv args)) /\
  json_path = Some (path_join (lit "output") (output_json args)) /\
  trace w2 = trace w'.
Proof.
  intros Hrun Hne Hcsv Hjson.
  pose proof (run_records_keys _ _ _ _ _ _ Hrun) as Hkeys.
  pose proof Hrun as [_ Hself]%scrape_multiple_pages_result.
  assert (Hres : results self' = r) by now rewrite Hself.
  assert (Hsum : exists lines, print_summary self' = Ret lines).
  { apply print_summary_returns. now rewrite Hres. }
  destruct Hsum as (lines & Hlines).
  split; [|split; [exact Hres|]].
  - unfold main, io_bind at 1. rewrite Hrun.
    destruct r as [|d l]; [congruence|].
    unfold io_bind at 1. rewrite Hcsv.
    unfold io_bind at 1. rewrite Hjson.
    unfold io_bind, lift. now rewrite Hlines.
  - assert (Hp1 : csv_path = Some (path_join (lit "output") (output_csv args))).
    { unfold save_to_csv, io_bind, io_ret in Hcsv. rewrite Hres in Hcsv.
      destruct r as [|d l]; [congruence|].
      destruct (on_fs (makedirs (lit "output")) w') as [[[]|?] ?];
        [|discriminate].
      destruct (on_fs (open_w _) _) as [[[]|?] ?]; [|discriminate].
      destruct (on_fs _ _) as [[[]|?] ?]; [|discriminate].
      destruct (write_rows _ _ _) as [[[]|?] ?]; [|discriminate].
      now injection Hcsv as <- _. }
    assert (Hp2 : json_path =
                  Some (path_join (lit "output") (output_json args))).
    { unfold save_to_json, io_bind, io_ret in Hjson. rewrite Hres in Hjson.
      destruct r as [|d l]; [congruence|].
      destruct (on_fs (makedirs (lit "output")) w1) as [[[]|?] ?];
        [|discriminate].
      destruct (on_fs (open_w _) _) as [[[]|?] ?]; [|discriminate].
      destruct (on_fs _ _) as [[[]|?] ?]; [|discriminate].
      now injection Hjson as <- _. }
    split; [exact Hp1|]. split; [exact Hp2|].
    pose proof (save_trace self' (output_csv args) w') as [Ht1 _].
    pose proof (save_trace self' (output_json args) w1) as [_ Ht2].
    rewrite Hcsv in Ht1. rewrite Hjson in Ht2. cbn [snd] in *. congruence.
Qed.

(** * More checks on concrete inputs *)

Lemma pair_of_fst {A B} (p : A * B) (a : A) : fst p = a -> p = (a, snd p).
Proof. destruct p. cbn. now intros ->. Qed.

Example extract_card5 :
  @extract_item_data Fixture.lib card5 = Some record5.
Proof. vm_compute. reflexivity. Qed.

(** A listing titled [N/A] is not kept. *)
Example kept_card6 : @kept Fixture.lib card6 = [].
Proof. vm_compute. reflexivity. Qed.

(** On [card5] the first two title selectors match nothing and the
    third finds [Cover XL]. *)
Lemma extract_text_fields_witness :
  @extract_item_data Fixture.lib card5 = Some record5 /\
  dict_get record5 "title" = Some (lit "Cover XL").
Proof.
  assert (Hd : @extract_item_data Fixture.lib card5 = Some record5)
    by (vm_compute; reflexivity).
  split; [exact Hd|].
  refine (proj1 (extract_text_fields (H := Fixture.lib) card5 record5 Hd)
            [lit "h6"; attr_selector "data-aut-id" "itemTitle"]
            (lit ".title") [lit "h6._2caa7"]
            (Fixture.el "span" [("class", "title")]%string
               [Fixture.txt "Cover XL"])
            eq_refl _ _).
  - apply Forall_cons_2; [|apply Forall_cons_2; [|apply Forall_nil_2]];
      vm_compute; reflexivity.
  - vm_compute. reflexivity.
Defined.

Lemma extract_price_marked_witness :
  @extract_item_data Fixture.lib card5 = Some record5 /\
  exists p, dict_get record5 "price" = Some p /\
            (p = NA \/ @price_mark Fixture.lib p).
Proof.
  assert (Hd : @extract_item_data Fixture.lib card5 = Some record5)
    by (vm_compute; reflexivity).
  exact (conj Hd (extract_price_marked (H := Fixture.lib) card5 record5 Hd)).
Defined.

(** [card5] has no link, and its image has a relative [src]. *)
Lemma extract_link_fields_witness :
  @extract_item_data Fixture.lib card5 = Some record5 /\
  dict_get record5 "url" = Some NA /\
  dict_get record5 "image_url" = Some (lit "img/5.jpg").
Proof.
  assert (Hd : @extract_item_data Fixture.lib card5 = Some record5)
    by (vm_compute; reflexivity).
  destruct (extract_link_fields (H := Fixture.lib) card5 record5 Hd)
    as (Hurl & _ & _ & Himg).
  split; [exact Hd|]. split.
  - apply Hurl. vm_compute. reflexivity.
  - apply (Himg (Fixture.el "img" [("src", "img/5.jpg")]%string [])).
    + vm_compute. reflexivity.
    + vm_compute. reflexivity.
    + vm_compute. discriminate.
Defined.

Lemma extracted_row_witness :
  @extract_item_data Fixture.lib card5 = Some record5 /\
  dict_to_list record5 =
    Ret [lit "Cover XL"; NA; NA; NA; lit "img/5.jpg"].
Proof.
  assert (Hd : @extract_item_data Fixture.lib card5 = Some record5)
    by (vm_compute; reflexivity).
  split; [exact Hd|].
  exact (proj1 (extracted_row (H := Fixture.lib) card5 record5 Hd)).
Defined.

(** One page with a negative delay. *)
Lemma short_run_witness :
  1 <= 1 /\
  fst (@scrape_multiple_pages Fixture.lib hasty 1 Fixture.start) =
    Ret ([Fixture.record1; Fixture.record3],
         set_results hasty [Fixture.record1; Fixture.record3]).
Proof.
  split; [lia|].
  rewrite (short_run (H := Fixture.lib) hasty 1 Fixture.start); [|lia].
  vm_compute. reflexivity.
Defined.

(** The sample [time.sleep] raises [ValueError] on the delay of [hasty],
    half a second below zero, and [OverflowError] on the delay of
    [patient]. *)
Lemma negative_delay_aborts_witness :
  2 <= 2 /\
  @time_sleep Fixture.lib (delay hasty) =
    Raise (OtherException "ValueError") /\
  @time_sleep Fixture.lib (delay patient) =
    Raise (OtherException "OverflowError") /\
  @scrape_multiple_pages Fixture.lib hasty 2 Fixture.start =
    (Raise (OtherException "ValueError"),
     @log Fixture.lib (EvGet (get_page_url hasty 1) 15) Fixture.start) /\
  @scrape_multiple_pages Fixture.lib patient 2 Fixture.start =
    (Raise (OtherException "OverflowError"),
     @log Fixture.lib (EvGet (get_page_url patient 1) 15) Fixture.start).
Proof.
  assert (Hn : 2 <= 2) by lia.
  assert (Hd : @time_sleep Fixture.lib (delay hasty) =
               Raise (OtherException "ValueError"))
    by (vm_compute; reflexivity).
  assert (Hp : @time_sleep Fixture.lib (delay patient) =
               Raise (OtherException "OverflowError"))
    by (vm_compute; reflexivity).
  refine (conj Hn (conj Hd (conj Hp (conj _ _)))).
  - exact (proj1 (negative_delay_aborts (H := Fixture.lib) hasty 2
                    Fixture.start _ Hn Hd)).
  - exact (proj1 (negative_delay_aborts (H := Fixture.lib) patient 2
                    Fixture.start _ Hn Hp)).
Defined.

Lemma run_effects_count_witness :
  1 <= 3 /\
  (3 = 1 \/ @time_sleep Fixture.lib (delay Fixture.scraper) = Ret tt) /\
  exists r w' evs,
    @scrape_multiple_pages Fixture.lib Fixture.scraper 3 Fixture.start =
      (Ret r, w') /\
    @trace Fixture.lib w' = @trace Fixture.lib Fixture.start ++ evs /\
    Z.of_nat (length (List.filter is_get evs)) = 3 /\
    Z.of_nat (length (List.filter is_sleep evs)) = 3 - 1.
Proof.
  assert (Hn : 1 <= 3) by lia.
  assert (Hd : 3 = 1 \/
               @time_sleep Fixture.lib (delay Fixture.scraper) = Ret tt)
    by (right; vm_compute; reflexivity).
  refine (conj Hn (conj Hd _)).
  destruct (run_effects_count (H := Fixture.lib) Fixture.scraper 3
              Fixture.start Hn Hd) as (r & w' & evs & Hrun & Ht & _ & Hg & Hs).
  exists r, w', evs. now repeat split.
Defined.

Lemma run_then_export_witness :
  let run := @scrape_multiple_pages offline Fixture.scraper 2 offline_start in
  run = (Ret ([], set_results Fixture.scraper []), snd run) /\
  @save_to_csv offline (set_results Fixture.scraper [])
    (lit "olx_car_covers.csv") (snd run) = (Ret None, snd run).
Proof.
  intros run.
  assert (Hrun : run = (Ret ([], set_results Fixture.scraper []), snd run))
    by (apply pair_of_fst; vm_compute; reflexivity).
  split; [exact Hrun|].
  destruct (run_then_export (H := offline) _ _ _ _ _ _ Hrun)
    as (_ & _ & _ & Hnone & _).
  exact (proj1 (Hnone eq_refl (lit "olx_car_covers.csv") (snd run))).
Defined.


(** A file name that begins with a slash is its own path. *)
Lemma saved_path_witness :
  let self := set_results Fixture.scraper [Fixture.record3] in
  let out := @save_to_json Fixture.lib self (lit "/tmp/out.json")
               Fixture.start in
  out = (Ret (Some (lit "/tmp/out.json")), snd out) /\
  startswith (lit "/tmp/out.json") (lit "/") = true /\
  path_join (lit "output") (lit "/tmp/out.json") = lit "/tmp/out.json".
Proof.
  intros self out.
  assert (Hout : out = (Ret (Some (lit "/tmp/out.json")), snd out))
    by (apply pair_of_fst; vm_compute; reflexivity).
  split; [exact Hout|]. split; [reflexivity|].
  destruct (saved_path (H := Fixture.lib) self (lit "/tmp/out.json")
              (lit "/tmp/out.json") Fixture.start (snd out) (or_intror Hout))
    as (_ & Hp & _).
  symmetry. exact Hp.
Defined.

Lemma print_summary_lines_witness :
  let self := set_results Fixture.scraper
                [Fixture.record1; Fixture.record3; Fixture.record3;
                 Fixture.record1] in
  Forall (fun d => dict_keys d = fieldnames) (results self) /\
  exists lines,
    print_summary self = Ret lines /\ length lines = 15%nat /\
    lines !! 3%nat = Some ([10%N] ++ lit "1. Car body cover").
Proof.
  intros self.
  assert (Hkeys : Forall (fun d => dict_keys d = fieldnames) (results self)).
  { repeat (apply Forall_cons_2; [reflexivity|]). apply Forall_nil_2. }
  split; [exact Hkeys|].
  destruct (print_summary_lines self Hkeys) as (lines & Hl & Hlen & Hat).
  exists lines. split; [exact Hl|]. split; [exact Hlen|].
  destruct (Hat 0%nat Fixture.record1) as (title & url & Ht & _ & Hline & _);
    [lia | reflexivity |].
  injection Ht as <-. exact Hline.
Defined.

Lemma main_no_records_witness :
  let run := @scrape_multiple_pages offline
               (OLXScraper_init default_base_url (arg_delay default_args))
               (pages default_args) offline_start in
  run = (Ret ([], set_results
                    (OLXScraper_init default_base_url (arg_delay default_args))
                    []), snd run) /\
  @main offline default_args offline_start = (Ret tt, snd run) /\
  @fs offline (snd run) = @fs offline offline_start.
Proof.
  intros run.
  assert (Hrun : run = (Ret ([], set_results
                    (OLXScraper_init default_base_url (arg_delay default_args))
                    []), snd run)) by (apply pair_of_fst; vm_compute; reflexivity).
  split; [exact Hrun|].
  exact (main_no_records (H := offline) default_args offline_start _ _ Hrun).
Defined.

(** With [output] present as a file the directory cannot be created. *)
Lemma main_export_failure_witness :
  let self := OLXScraper_init default_base_url (arg_delay default_args) in
  let run := @scrape_multiple_pages Fixture.lib self (pages default_args)
               blocked in
  let r := [Fixture.record1; Fixture.record3; Fixture.record3] in
  run = (Ret (r, set_results self r), snd run) /\
  r <> [] /\
  @makedirs Fixture.lib (lit "output") (@fs Fixture.lib (snd run)) =
    Raise (OtherException "FileExistsError") /\
  @main Fixture.lib default_args blocked =
    (Raise (OtherException "FileExistsError"), snd run).
Proof.
  intros self run r.
  assert (Hrun : run = (Ret (r, set_results self r), snd run))
    by (apply pair_of_fst; vm_compute; reflexivity).
  assert (Hne : r <> []) by discriminate.
  assert (Hmk : @makedirs Fixture.lib (lit "output")
                  (@fs Fixture.lib (snd run)) =
                Raise (OtherException "FileExistsError"))
    by (vm_compute; reflexivity).
  refine (conj Hrun (conj Hne (conj Hmk _))).
  exact (proj1 (main_export_failure (H := Fixture.lib) default_args blocked
                  r _ (snd run) _ Hrun Hne Hmk)).
Defined.

Lemma main_negative_delay_witness :
  2 <= pages hasty_args /\
  @time_sleep Fixture.lib (arg_delay hasty_args) =
    Raise (OtherException "ValueError") /\
  @main Fixture.lib hasty_args Fixture.start =
    (Raise (OtherException "ValueError"),
     @log Fixture.lib (EvGet default_base_url 15) Fixture.start).
Proof.
  assert (Hn : 2 <= pages hasty_args) by (simpl; lia).
  assert (Hd : @time_sleep Fixture.lib (arg_delay hasty_args) =
               Raise (OtherException "ValueError"))
    by (vm_compute; reflexivity).
  refine (conj Hn (conj Hd _)).
  exact (main_negative_delay (H := Fixture.lib) hasty_args Fixture.start _
           Hn Hd).
Defined.

Lemma run_records_exportable_witness :
  let run := @scrape_multiple_pages Fixture.lib Fixture.scraper 3
               Fixture.start in
  let r := [Fixture.record1; Fixture.record3; Fixture.record3] in
  run = (Ret (r, set_results Fixture.scraper r), snd run) /\
  Forall (fun d =>
            dict_keys d = fieldnames /\
            dict_to_list d = Ret (dict_values d) /\
            length (dict_values d) = 5%nat) r.
Proof.
  intros run r.
  assert (Hrun : run = (Ret (r, set_results Fixture.scraper r), snd run))
    by (apply pair_of_fst; vm_compute; reflexivity).
  split; [exact Hrun|].
  exact (proj1 (run_records_exportable (H := Fixture.lib) _ _ _ _ _ _ Hrun)).
Defined.

Lemma main_success_witness :
  let self := OLXScraper_init default_base_url (arg_delay default_args) in
  let run := @scrape_multiple_pages Fixture.lib self (pages default_args)
               Fixture.start in
  let r := [Fixture.record1; Fixture.record3; Fixture.record3] in
  let csv := @save_to_csv Fixture.lib (set_results self r)
               (output_csv default_args) (snd run) in
  let json := @save_to_json Fixture.lib (set_results self r)
                (output_json default_args) (snd csv) in
  run = (Ret (r, set_results self r), snd run) /\
  r <> [] /\
  csv = (Ret (Some (lit "output/olx_car_covers.csv")), snd csv) /\
  json = (Ret (Some (lit "output/olx_car_covers.json")), snd json) /\
  @main Fixture.lib default_args Fixture.start = (Ret tt, snd json).
Proof.
  intros self run r csv json.
  assert (Hrun : run = (Ret (r, set_results self r), snd run))
    by (apply pair_of_fst; vm_compute; reflexivity).
  assert (Hne : r <> []) by discriminate.
  assert (Hcsv : csv = (Ret (Some (lit "output/olx_car_covers.csv")), snd csv))
    by (apply pair_of_fst; vm_compute; reflexivity).
  assert (Hjson : json =
                  (Ret (Some (lit "output/olx_car_covers.json")), snd json))
    by (apply pair_of_fst; vm_compute; reflexivity).
  refine (conj Hrun (conj Hne (conj Hcsv (conj Hjson _)))).
  exact (proj1 (main_success (H := Fixture.lib) default_args Fixture.start
                  r _ (snd run) (snd csv) (snd json) _ _
                  Hrun Hne Hcsv Hjson)).
Defined.
